(** * YOWO training / evaluation orchestrator ([main.py])

    A shallow embedding of [main(cfg)] and of the properties its
    specification states about it.

    - Python integers (epoch numbers, sizes) are [Z].
    - Scores and learning rates are Python floats; they are embedded as
      rationals [Q]: every finite float is a rational and the comparison
      [score > best_score] of finite floats is the comparison of the
      rationals they denote (not-a-number values are not modelled).
    - The configuration object [cfg] is a mutable object shared by the whole
      run: it lives in the store [World], next to the chronological list of
      observable effects.
    - A Python exception aborts [main]; it is the [Raise] outcome of the
      monad [M], which keeps the store reached when the exception was raised.
    - The components [main] calls into and that are not part of [main.py]
      (the network, the optimizer, the learning-rate policy, the train and
      test procedures) are the fields of the interface [Collaborators]. They
      are total functions: a collaborator that itself raises ends the
      process, and no property below is about such a run. *)

From Stdlib Require Import ZArith QArith Qminmax Lia.
From stdpp Require Import base option list list_numbers gmap strings.

Local Open Scope Z_scope.
Local Open Scope string_scope.

(** ** Configuration (the fields of [cfg] that [main] reads or writes) *)

Record TrainCfg := {
  DATASET : string;
  BEGIN_EPOCH : Z;
  END_EPOCH : Z;
  EVALUATE : bool;
  RESUME_PATH : string;
  LEARNING_RATE : Q;
  BATCH_SIZE : Z
}.

Record SolverCfg := { WEIGHT_DECAY : Q }.

Record DataCfg := {
  TRAIN_CROP_SIZE : Z;
  NUM_FRAMES : Z;
  SAMPLING_RATE : Z
}.

Record ListdataCfg := {
  BASE_PTH : string;
  TRAIN_FILE : string;
  TEST_FILE : string
}.

Record DataLoaderCfg := { NUM_WORKERS : Z }.

Record Config := {
  TRAIN : TrainCfg;
  SOLVER : SolverCfg;
  DATA : DataCfg;
  LISTDATA : ListdataCfg;
  DATA_LOADER : DataLoaderCfg;
  BACKUP_DIR : string
}.

(** The assignment [cfg.TRAIN.BEGIN_EPOCH = v] (line 54), the only
    assignment to a field of [cfg] in [main]. *)
Definition set_BEGIN_EPOCH (v : Z) (c : Config) : Config :=
  {| TRAIN := {| DATASET := DATASET (TRAIN c);
                 BEGIN_EPOCH := v;
                 END_EPOCH := END_EPOCH (TRAIN c);
                 EVALUATE := EVALUATE (TRAIN c);
                 RESUME_PATH := RESUME_PATH (TRAIN c);
                 LEARNING_RATE := LEARNING_RATE (TRAIN c);
                 BATCH_SIZE := BATCH_SIZE (TRAIN c) |};
     SOLVER := SOLVER c;
     DATA := DATA c;
     LISTDATA := LISTDATA c;
     DATA_LOADER := DATA_LOADER c;
     BACKUP_DIR := BACKUP_DIR c |}.

(** ** Objects built by [main] from constructor arguments (lines 71-85) *)

Record UCF_JHMDB_Dataset := {
  ds_base : string;
  ds_file : string;
  ds_dataset : string;
  ds_shape : Z * Z;
  ds_train : bool;
  ds_clip_duration : Z;
  ds_sampling_rate : Z
}.

Record DataLoader := {
  dl_dataset : UCF_JHMDB_Dataset;
  dl_batch_size : Z;
  dl_shuffle : bool;
  dl_num_workers : Z;
  dl_drop_last : bool;
  dl_pin_memory : bool
}.

Inductive LossModule := RegionLoss (c : Config).

(** ** External collaborators

    [state_dict]/[load_state_dict] come with the contract of the framework:
    loading a state dictionary makes it the state of the object. *)

Class Collaborators := {
  Net : Type;
  Optimizer : Type;
  NetState : Type;
  OptState : Type;
  ParamGroups : Type;
  YOWO : Config -> Net;
  trainable_numel : Net -> Z;
  cuda_is_available : bool;
  get_fine_tuning_parameters : Net -> Config -> ParamGroups;
  Adam : ParamGroups -> Q -> Q -> Optimizer;
  state_dict : Net -> NetState;
  load_state_dict : Net -> NetState -> Net;
  opt_state_dict : Optimizer -> OptState;
  opt_load_state_dict : Optimizer -> OptState -> Optimizer;
  adjust_learning_rate : Optimizer -> Z -> Config -> Q * Optimizer;
  train_ucf24_jhmdb21 :
    Config -> Z -> Net -> DataLoader -> LossModule -> Optimizer -> Net * Optimizer;
  test_ucf24_jhmdb21 : Config -> Z -> Net -> DataLoader -> Q;
  state_dict_load : forall m sd, state_dict (load_state_dict m sd) = sd;
  opt_state_dict_load : forall o sd, opt_state_dict (opt_load_state_dict o sd) = sd
}.

(** ** Two concrete sets of collaborators, used to run [main]

    In both the network is one integer weight, a training call adds one to
    it and state dictionaries are the objects themselves. [demo] scores a
    network of weight [m] as [min m (4 - m) / 10]; [flat] always scores 0. *)

Definition demo : Collaborators := {|
  Net := Z; Optimizer := Z; NetState := Z; OptState := Z; ParamGroups := Z;
  YOWO := fun _ => 0;
  trainable_numel := fun _ => 1;
  cuda_is_available := false;
  get_fine_tuning_parameters := fun m _ => m;
  Adam := fun _ _ _ => 0;
  state_dict := fun m => m;
  load_state_dict := fun _ sd => sd;
  opt_state_dict := fun o => o;
  opt_load_state_dict := fun _ sd => sd;
  adjust_learning_rate := fun o _ c => (LEARNING_RATE (TRAIN c), o);
  train_ucf24_jhmdb21 := fun _ _ m _ _ o => (m + 1, o + 1);
  test_ucf24_jhmdb21 := fun _ _ m _ => Qmake (Z.min m (4 - m)) 10;
  state_dict_load := fun _ _ => eq_refl;
  opt_state_dict_load := fun _ _ => eq_refl
|}.

Definition flat : Collaborators := {|
  Net := Z; Optimizer := Z; NetState := Z; OptState := Z; ParamGroups := Z;
  YOWO := fun _ => 0;
  trainable_numel := fun _ => 1;
  cuda_is_available := true;
  get_fine_tuning_parameters := fun m _ => m;
  Adam := fun _ _ _ => 0;
  state_dict := fun m => m;
  load_state_dict := fun _ sd => sd;
  opt_state_dict := fun o => o;
  opt_load_state_dict := fun _ sd => sd;
  adjust_learning_rate := fun o _ c => (LEARNING_RATE (TRAIN c), o);
  train_ucf24_jhmdb21 := fun _ _ m _ _ o => (m + 1, o + 1);
  test_ucf24_jhmdb21 := fun _ _ _ _ => 0%Q;
  state_dict_load := fun _ _ => eq_refl;
  opt_state_dict_load := fun _ _ => eq_refl
|}.

(** A configuration for an epoch range, a dataset and a resume path. *)
Definition config (dataset : string) (b e : Z) (evaluate : bool)
    (resume_path : string) : Config :=
  {| TRAIN := {| DATASET := dataset; BEGIN_EPOCH := b; END_EPOCH := e;
                 EVALUATE := evaluate; RESUME_PATH := resume_path;
                 LEARNING_RATE := Qmake 1 10000; BATCH_SIZE := 8 |};
     SOLVER := {| WEIGHT_DECAY := Qmake 5 10000 |};
     DATA := {| TRAIN_CROP_SIZE := 224; NUM_FRAMES := 16; SAMPLING_RATE := 1 |};
     LISTDATA := {| BASE_PTH := "data"; TRAIN_FILE := "trainlist.txt";
                    TEST_FILE := "testlist.txt" |};
     DATA_LOADER := {| NUM_WORKERS := 4 |};
     BACKUP_DIR := "backup" |}.

(** [a > b] on scores, as a boolean. *)
Definition Qgtb (a b : Q) : bool :=
  match (a ?= b)%Q with Gt => true | _ => false end.

(** [range(start, stop)]. *)
Definition py_range (start stop : Z) : list Z := seqZ start (stop - start).

(** ** Exceptions and outcomes of a run *)

Inductive exn :=
| AssertionError (msg : string)
| UnboundLocalError (name : string)
| KeyError (key : string)
| UnpicklingError (path : string)
| FileNotFoundError (path : string).

Inductive outcome (A : Type) :=
| Return (a : A)
| Raise (e : exn).
Arguments Return {A} a.
Arguments Raise {A} e.

Section Orchestrator.
Context `{K : Collaborators}.

(** ** Checkpoint dictionaries and the files at the resume path

    A checkpoint is the dictionary of lines 114-118. A file read back by
    [torch.load] is either not a readable pickle or a dictionary in which
    each of the four keys may be missing (a missing key raises [KeyError]
    where [main] subscripts it). *)

Record Checkpoint := {
  ck_epoch : Z;
  ck_state_dict : NetState;
  ck_optimizer : OptState;
  ck_score : Q
}.

Record LoadedDict := {
  ld_epoch : option Z;
  ld_score : option Q;
  ld_state_dict : option NetState;
  ld_optimizer : option OptState
}.

Inductive File :=
| Unreadable
| Pickled (d : LoadedDict).

(** What [torch.save] of a checkpoint dictionary reads back as. *)
Definition pickle (c : Checkpoint) : File :=
  Pickled {| ld_epoch := Some (ck_epoch c);
             ld_score := Some (ck_score c);
             ld_state_dict := Some (ck_state_dict c);
             ld_optimizer := Some (ck_optimizer c) |}.

(** A file is a well-formed checkpoint when it unpickles to a dictionary
    holding the four keys. *)
Definition well_formed (f : File) : bool :=
  match f with
  | Unreadable => false
  | Pickled d =>
      bool_decide (is_Some (ld_epoch d)) && bool_decide (is_Some (ld_score d))
      && bool_decide (is_Some (ld_state_dict d))
      && bool_decide (is_Some (ld_optimizer d))
  end.

(** ** Observable effects

    One event for each call [main] makes outside itself: the lines it prints
    or logs ([message]), the constructions of lines 27-45 and 71-85, the
    seeding, [torch.load] and the two [load_state_dict] calls of the resume
    step, and in the schedule the calls of [adjust_learning_rate], [train],
    [test] (with the score it returned) and [save_checkpoint] (with its
    arguments). [EvWrite] is a write of a record to a slot by
    [save_checkpoint]. *)

Inductive message :=
| MsgTotalParams (n : Z)
| MsgRule
| MsgLoadingCheckpoint (path : string)
| MsgLoadedScore (s : Q)
| MsgDataset (d : string)
| MsgEvaluating
| MsgTraining (epoch : Z) (lr : Q)
| MsgTesting (epoch : Z)
| MsgNewBest (s : Q)
| MsgPreviousScore (s : Q)
| MsgSaved (dir : string).

Inductive slot := Latest | Best.

Inductive event :=
| EvCreateModel (c : Config)
| EvLogging (m : message)
| EvPrint (m : message)
| EvManualSeed (seed : Z)
| EvSetEnv (var val : string)
| EvCudaManualSeed (seed : Z)
| EvCreateOptimizer (lr wd : Q)
| EvTorchLoad (path : string)
| EvLoadModelState (sd : NetState)
| EvLoadOptimizerState (sd : OptState)
| EvCreateDataset (d : UCF_JHMDB_Dataset)
| EvCreateLoader (l : DataLoader)
| EvCreateLoss (l : LossModule)
| EvAdjustLR (epoch : Z)
| EvTrain (epoch : Z)
| EvTest (epoch : Z) (score : Q)
| EvSaveCheckpoint (state : Checkpoint) (is_best : bool)
                   (dir dataset : string) (clip_duration : Z)
| EvWrite (s : slot) (dir dataset : string) (clip_duration : Z)
          (state : Checkpoint).

(** ** The store and the monad of [main] *)

Record World := {
  w_cfg : Config;
  w_out : list event
}.

Definition M (A : Type) : Type := World -> outcome A * World.

Definition ret {A} (a : A) : M A := fun w => (Return a, w).

Definition bind {A B} (m : M A) (k : A -> M B) : M B :=
  fun w => match m w with
           | (Return a, w') => k a w'
           | (Raise e, w') => (Raise e, w')
           end.

Definition raise {A} (e : exn) : M A := fun w => (Raise e, w).

Definition emit (ev : event) : M unit :=
  fun w => (Return tt, {| w_cfg := w_cfg w; w_out := w_out w ++ [ev] |}).

Definition get_cfg : M Config := fun w => (Return (w_cfg w), w).

Definition assign_BEGIN_EPOCH (v : Z) : M unit :=
  fun w => (Return tt, {| w_cfg := set_BEGIN_EPOCH v (w_cfg w); w_out := w_out w |}).


#[local] Instance M_ret : MRet M := @ret.
#[local] Instance M_bind : MBind M := fun A B k m => bind m k.

Definition logging (m : message) : M unit := emit (EvLogging m).
Definition print (m : message) : M unit := emit (EvPrint m).

(** [assert cond, msg] *)
Definition assert_ (cond : bool) (msg : string) : M unit :=
  if cond then ret tt else raise (AssertionError msg).

(** [d[key]] on a loaded dictionary. *)
Definition subscript {A} (key : string) (v : option A) : M A :=
  match v with
  | Some a => ret a
  | None => raise (KeyError key)
  end.

(** ** The file system seen by the resume step *)

Definition isfile (fs : gmap string File) (path : string) : bool :=
  bool_decide (is_Some (fs !! path)).

Definition torch_load (fs : gmap string File) (path : string) : M LoadedDict :=
  emit (EvTorchLoad path);;
  match fs !! path with
  | Some (Pickled d) => ret d
  | Some Unreadable => raise (UnpicklingError path)
  | None => raise (FileNotFoundError path)
  end.

(** ** Local variables of [main] *)

Record Locals := {
  model : Net;
  optimizer : Optimizer;
  best_score : Q
}.

(** The names bound by the branch of lines 70-88; they are unbound when
    the branch is not taken. *)
Record Bound := {
  train_loader : DataLoader;
  test_loader : DataLoader;
  loss_module : LossModule;
  train : Config -> Z -> Net -> DataLoader -> LossModule -> Optimizer -> Net * Optimizer;
  test : Config -> Z -> Net -> DataLoader -> Q
}.

(** Evaluating a name of that branch. *)
Definition local (name : string) (env : option Bound) : M Bound :=
  match env with
  | Some b => ret b
  | None => raise (UnboundLocalError name)
  end.

(** ** [main], lines 26-46: model, seeds, optimizer *)

Definition create_model : M Net :=
  cfg ← get_cfg;
  emit (EvCreateModel cfg);;
  let model := YOWO cfg in
  logging (MsgTotalParams (trainable_numel model));;
  mret model.

Definition set_seeds : M unit :=
  let seed := 42 in
  emit (EvManualSeed seed);;
  if cuda_is_available
  then emit (EvSetEnv "CUDA_VISIBLE_DEVICES" "0");; emit (EvCudaManualSeed seed)
  else mret tt.

Definition create_optimizer (model : Net) : M Optimizer :=
  cfg ← get_cfg;
  let parameters := get_fine_tuning_parameters model cfg in
  let lr := LEARNING_RATE (TRAIN cfg) in
  let wd := WEIGHT_DECAY (SOLVER cfg) in
  emit (EvCreateOptimizer lr wd);;
  mret (Adam parameters lr wd).

(** ** Lines 49-62: resume *)

Definition resume (fs : gmap string File) (l : Locals) : M Locals :=
  cfg ← get_cfg;
  let path := RESUME_PATH (TRAIN cfg) in
  if isfile fs path then
    print MsgRule;;
    print (MsgLoadingCheckpoint path);;
    checkpoint ← torch_load fs path;
    epoch ← subscript "epoch" (ld_epoch checkpoint);
    assign_BEGIN_EPOCH (epoch + 1);;
    score ← subscript "score" (ld_score checkpoint);
    sd ← subscript "state_dict" (ld_state_dict checkpoint);
    emit (EvLoadModelState sd);;
    osd ← subscript "optimizer" (ld_optimizer checkpoint);
    emit (EvLoadOptimizerState osd);;
    print (MsgLoadedScore score);;
    print MsgRule;;
    mret {| model := load_state_dict (model l) sd;
            optimizer := opt_load_state_dict (optimizer l) osd;
            best_score := score |}
  else mret l.


(** ** Lines 64-88: data loaders, loss and procedures of the dataset *)

Definition select_dataset : M (option Bound) :=
  cfg ← get_cfg;
  let dataset := DATASET (TRAIN cfg) in
  assert_ (String.eqb dataset "ucf24" || String.eqb dataset "jhmdb21"
           || String.eqb dataset "ava") "invalid dataset";;
  print (MsgDataset dataset);;
  if String.eqb dataset "ucf24" || String.eqb dataset "jhmdb21" then
    cfg ← get_cfg;
    let shape := (TRAIN_CROP_SIZE (DATA cfg), TRAIN_CROP_SIZE (DATA cfg)) in
    let train_dataset :=
      {| ds_base := BASE_PTH (LISTDATA cfg); ds_file := TRAIN_FILE (LISTDATA cfg);
         ds_dataset := dataset; ds_shape := shape; ds_train := true;
         ds_clip_duration := NUM_FRAMES (DATA cfg);
         ds_sampling_rate := SAMPLING_RATE (DATA cfg) |} in
    emit (EvCreateDataset train_dataset);;
    let test_dataset :=
      {| ds_base := BASE_PTH (LISTDATA cfg); ds_file := TEST_FILE (LISTDATA cfg);
         ds_dataset := dataset; ds_shape := shape; ds_train := false;
         ds_clip_duration := NUM_FRAMES (DATA cfg);
         ds_sampling_rate := SAMPLING_RATE (DATA cfg) |} in
    emit (EvCreateDataset test_dataset);;
    let train_loader :=
      {| dl_dataset := train_dataset; dl_batch_size := BATCH_SIZE (TRAIN cfg);
         dl_shuffle := true; dl_num_workers := NUM_WORKERS (DATA_LOADER cfg);
         dl_drop_last := true; dl_pin_memory := true |} in
    emit (EvCreateLoader train_loader);;
    let test_loader :=
      {| dl_dataset := test_dataset; dl_batch_size := BATCH_SIZE (TRAIN cfg);
         dl_shuffle := false; dl_num_workers := NUM_WORKERS (DATA_LOADER cfg);
         dl_drop_last := false; dl_pin_memory := true |} in
    emit (EvCreateLoader test_loader);;
    let loss_module := RegionLoss cfg in
    emit (EvCreateLoss loss_module);;
    mret (Some {| train_loader := train_loader; test_loader := test_loader;
                  loss_module := loss_module;
                  train := train_ucf24_jhmdb21; test := test_ucf24_jhmdb21 |})
  else mret None.

(** Modelled from the spec: [save_checkpoint] of [core.utils], which is not
    in [main.py]. The record is persisted unconditionally in the "latest"
    slot and, if [is_best], additionally in the "best" slot; the two slots of
    a run are named after the backup directory, the dataset identifier and
    the frame count. *)
Definition save_checkpoint (state : Checkpoint) (is_best : bool)
    (directory dataset : string) (clip_duration : Z) : M unit :=
  emit (EvWrite Latest directory dataset clip_duration state);;
  if is_best then emit (EvWrite Best directory dataset clip_duration state)
  else mret tt.

(** ** Lines 97-120: the body of the epoch loop *)

Definition epoch_cycle (env : option Bound) (epoch : Z) (l : Locals) : M Locals :=
  cfg ← get_cfg;
  let '(lr_new, optimizer) := adjust_learning_rate (optimizer l) epoch cfg in
  emit (EvAdjustLR epoch);;
  logging (MsgTraining epoch lr_new);;
  b ← local "train" env;
  cfg ← get_cfg;
  let '(model, optimizer) :=
    train b cfg epoch (model l) (train_loader b) (loss_module b) optimizer in
  emit (EvTrain epoch);;
  logging (MsgTesting epoch);;
  cfg ← get_cfg;
  let score := test b cfg epoch model (test_loader b) in
  emit (EvTest epoch score);;
  let is_best := Qgtb score (best_score l) in
  best_score ←
    (if is_best then
       print (MsgNewBest score);;
       print (MsgPreviousScore (best_score l));;
       mret score
     else mret (best_score l));
  let state := {| ck_epoch := epoch;
                  ck_state_dict := state_dict model;
                  ck_optimizer := opt_state_dict optimizer;
                  ck_score := score |} in
  cfg ← get_cfg;
  emit (EvSaveCheckpoint state is_best (BACKUP_DIR cfg) (DATASET (TRAIN cfg))
                         (NUM_FRAMES (DATA cfg)));;
  save_checkpoint state is_best (BACKUP_DIR cfg) (DATASET (TRAIN cfg))
                  (NUM_FRAMES (DATA cfg));;
  cfg ← get_cfg;
  logging (MsgSaved (BACKUP_DIR cfg));;
  mret {| model := model; optimizer := optimizer; best_score := best_score |}.

(** [for x in xs: body], threading the local variables the body assigns. *)
Fixpoint for_in {A S} (xs : list A) (body : A -> S -> M S) (s : S) : M S :=
  match xs with
  | [] => mret s
  | x :: xs' => s' ← body x s; for_in xs' body s'
  end.

(** ** Lines 90-120: training and testing schedule *)

Definition training_loop (env : option Bound) (l : Locals) : M Locals :=
  cfg ← get_cfg;
  for_in (py_range (BEGIN_EPOCH (TRAIN cfg)) (END_EPOCH (TRAIN cfg) + 1))
         (epoch_cycle env) l.

Definition schedule (env : option Bound) (l : Locals) : M unit :=
  cfg ← get_cfg;
  if EVALUATE (TRAIN cfg) then
    logging MsgEvaluating;;
    b ← local "test" env;
    cfg ← get_cfg;
    emit (EvTest 0 (test b cfg 0 (model l) (test_loader b)))
  else
    training_loop env l;; mret tt.

(** ** [main(cfg)] *)

Definition prologue (fs : gmap string File) : M (Locals * option Bound) :=
  model ← create_model;
  set_seeds;;
  optimizer ← create_optimizer model;
  let best_score := 0%Q in
  l ← resume fs {| model := model; optimizer := optimizer; best_score := best_score |};
  env ← select_dataset;
  mret (l, env).

Definition main (fs : gmap string File) : M unit :=
  '(l, env) ← prologue fs;
  schedule env l.

(** The store in which [main(cfg)] starts. *)
Definition start (cfg : Config) : World := {| w_cfg := cfg; w_out := [] |}.

(** ** Projections of the list of effects *)

Definition trained_epochs (out : list event) : list Z :=
  omap (fun ev => match ev with EvTrain e => Some e | _ => None end) out.

Definition tested_epochs (out : list event) : list Z :=
  omap (fun ev => match ev with EvTest e _ => Some e | _ => None end) out.

Definition scores_seen (out : list event) : list Q :=
  omap (fun ev => match ev with EvTest _ s => Some s | _ => None end) out.

Definition adjusted_epochs (out : list event) : list Z :=
  omap (fun ev => match ev with EvAdjustLR e => Some e | _ => None end) out.

Definition save_calls (out : list event) : list (Checkpoint * bool) :=
  omap (fun ev => match ev with
                  | EvSaveCheckpoint st b _ _ _ => Some (st, b)
                  | _ => None
                  end) out.

Definition writes_to (s : slot) (out : list event) : list Checkpoint :=
  omap (fun ev => match ev with
                  | EvWrite Latest _ _ _ st =>
                      match s with Latest => Some st | Best => None end
                  | EvWrite Best _ _ _ st =>
                      match s with Best => Some st | Latest => None end
                  | _ => None
                  end) out.

Definition models_built (out : list event) : list Config :=
  omap (fun ev => match ev with EvCreateModel c => Some c | _ => None end) out.

(** ** Descriptions of runs

    The shapes the effects and local variables of a run can take; each is
    related to the code of [main] by a lemma of the next section. *)

(** The effects of lines 26-88 never include a call of a procedure of the
    schedule. *)
Definition setup_event (ev : event) : bool :=
  match ev with
  | EvAdjustLR _ | EvTrain _ | EvTest _ _
  | EvSaveCheckpoint _ _ _ _ _ | EvWrite _ _ _ _ _ => false
  | _ => true
  end.

(** The store [w] after the further effects [evs]. *)
Definition after (w : World) (evs : list event) : World :=
  {| w_cfg := w_cfg w; w_out := w_out w ++ evs |}.

(** The effects of one completed cycle of the loop, in order. *)
Definition cycle_events (cfg : Config) (epoch : Z) (lr : Q) (state : Checkpoint)
    (previous : Q) (is_best : bool) : list event :=
  [EvAdjustLR epoch; EvLogging (MsgTraining epoch lr); EvTrain epoch;
   EvLogging (MsgTesting epoch); EvTest epoch (ck_score state)]
  ++ (if is_best
      then [EvPrint (MsgNewBest (ck_score state)); EvPrint (MsgPreviousScore previous)]
      else [])
  ++ [EvSaveCheckpoint state is_best (BACKUP_DIR cfg) (DATASET (TRAIN cfg))
                       (NUM_FRAMES (DATA cfg));
      EvWrite Latest (BACKUP_DIR cfg) (DATASET (TRAIN cfg)) (NUM_FRAMES (DATA cfg)) state]
  ++ (if is_best
      then [EvWrite Best (BACKUP_DIR cfg) (DATASET (TRAIN cfg))
                    (NUM_FRAMES (DATA cfg)) state]
      else [])
  ++ [EvLogging (MsgSaved (BACKUP_DIR cfg))].

(** The local variables and effects of lines 26-46. *)
Definition init_locals (cfg : Config) : Locals :=
  {| model := YOWO cfg;
     optimizer := Adam (get_fine_tuning_parameters (YOWO cfg) cfg)
                       (LEARNING_RATE (TRAIN cfg)) (WEIGHT_DECAY (SOLVER cfg));
     best_score := 0%Q |}.

Definition init_events (cfg : Config) : list event :=
  [EvCreateModel cfg; EvLogging (MsgTotalParams (trainable_numel (YOWO cfg)));
   EvManualSeed 42]
  ++ (if cuda_is_available
      then [EvSetEnv "CUDA_VISIBLE_DEVICES" "0"; EvCudaManualSeed 42]
      else [])
  ++ [EvCreateOptimizer (LEARNING_RATE (TRAIN cfg)) (WEIGHT_DECAY (SOLVER cfg))].

(** The effects of a resume step that loads a checkpoint. *)
Definition resume_events (path : string) (s : Q) (sd : NetState) (osd : OptState)
    : list event :=
  [EvPrint MsgRule; EvPrint (MsgLoadingCheckpoint path); EvTorchLoad path;
   EvLoadModelState sd; EvLoadOptimizerState osd;
   EvPrint (MsgLoadedScore s); EvPrint MsgRule].

(** The effects a resume step can have. *)
Definition resume_event (ev : event) : bool :=
  match ev with
  | EvPrint MsgRule | EvPrint (MsgLoadingCheckpoint _) | EvPrint (MsgLoadedScore _)
  | EvTorchLoad _ | EvLoadModelState _ | EvLoadOptimizerState _ => true
  | _ => false
  end.

(** The resume step does not fail: no file at the resume path, or a
    well-formed checkpoint. *)
Definition resumable (fs : gmap string File) (cfg : Config) : bool :=
  match fs !! RESUME_PATH (TRAIN cfg) with
  | Some f => well_formed f
  | None => true
  end.

(** What a resume step that does not fail leaves behind, from the locals
    and configuration of lines 26-46: either nothing changes (no file), or
    the checkpoint replaces the begin epoch, the best score and both
    states. *)
Inductive resume_result (fs : gmap string File) (cfg : Config) :
    Locals -> Config -> list event -> Prop :=
| resume_skipped :
    fs !! RESUME_PATH (TRAIN cfg) = None ->
    resume_result fs cfg (init_locals cfg) cfg []
| resume_restored d k s sd osd :
    fs !! RESUME_PATH (TRAIN cfg) = Some (Pickled d) ->
    ld_epoch d = Some k -> ld_score d = Some s ->
    ld_state_dict d = Some sd -> ld_optimizer d = Some osd ->
    resume_result fs cfg
      {| model := load_state_dict (model (init_locals cfg)) sd;
         optimizer := opt_load_state_dict (optimizer (init_locals cfg)) osd;
         best_score := s |}
      (set_BEGIN_EPOCH (k + 1) cfg)
      (resume_events (RESUME_PATH (TRAIN cfg)) s sd osd).

(** A computation that leaves the configuration object as it is. *)
Definition cfg_kept {A} (m : M A) : Prop :=
  forall w, w_cfg (snd (m w)) = w_cfg w.

(** One completed cycle as a step on the local variables: the learning rate
    [lr] is applied, the training call yields the network and optimizer of
    [l'], the evaluation call scores that network [s], and the best score is
    replaced exactly when [s] is greater. *)
Definition cycle_step (b : Bound) (cfg : Config) (epoch : Z)
    (l l' : Locals) (lr s : Q) : Prop :=
  exists o1,
    adjust_learning_rate (optimizer l) epoch cfg = (lr, o1) /\
    train b cfg epoch (model l) (train_loader b) (loss_module b) o1
      = (model l', optimizer l') /\
    s = test b cfg epoch (model l') (test_loader b) /\
    best_score l' = if Qgtb s (best_score l) then s else best_score l.

(** The checkpoint dictionary of lines 114-118 at the end of a cycle. *)
Definition checkpoint_of (epoch : Z) (l' : Locals) (s : Q) : Checkpoint :=
  {| ck_epoch := epoch;
     ck_state_dict := state_dict (model l');
     ck_optimizer := opt_state_dict (optimizer l');
     ck_score := s |}.

(** Consecutive completed cycles over a list of epochs, with the effects
    they produce. *)
Inductive cycles (b : Bound) (cfg : Config) :
    list Z -> Locals -> Locals -> list event -> Prop :=
| cycles_done l : cycles b cfg [] l l []
| cycles_step e es l l1 l2 lr s evs :
    cycle_step b cfg e l l1 lr s ->
    cycles b cfg es l1 l2 evs ->
    cycles b cfg (e :: es) l l2
      (cycle_events cfg e lr (checkpoint_of e l1 s) (best_score l)
                    (Qgtb s (best_score l)) ++ evs).

End Orchestrator.

(** ** Concrete inputs

    A file system holding, at ["ckpt.pth"], the checkpoint of epoch 1 with
    score -1/2, and one holding the checkpoint of epoch 3 with score 1/10. *)

Definition demo_fs : gmap string (@File demo) :=
  {[ "ckpt.pth" := @pickle demo (@Build_Checkpoint demo 1 7 9 (Qmake (-1) 2)) ]}.

Definition finished_fs : gmap string (@File demo) :=
  {[ "ckpt.pth" := @pickle demo (@Build_Checkpoint demo 3 3 3 (Qmake 1 10)) ]}.

(** ** The script around [main] (lines 124-137)

    The host file system is used through [os.path.exists] and [os.makedirs]
    only. [makedirs] returns the host it leaves and whether it succeeded (it
    raises otherwise); when it succeeds the path exists. The configuration is
    the one [parser.load_config] returned. *)




Section Script.
Context `{K : Collaborators} `{H : Host}.



End Script.

Section Observations.
Context `{K : Collaborators}.

(** ** Further projections and descriptions of runs *)

(** The calls of the schedule, each with the epoch it is made for. *)
Inductive phase := Adjusting | Training | Testing | Saving.

Definition phases (out : list event) : list (phase * Z) :=
  omap (fun ev => match ev with
                  | EvAdjustLR e => Some (Adjusting, e)
                  | EvTrain e => Some (Training, e)
                  | EvTest e _ => Some (Testing, e)
                  | EvSaveCheckpoint st _ _ _ _ => Some (Saving, ck_epoch st)
                  | _ => None
                  end) out.

(** Directory, dataset and frame count of each [save_checkpoint] call. *)
Definition save_targets (out : list event) : list (string * string * Z) :=
  omap (fun ev => match ev with
                  | EvSaveCheckpoint _ _ d ds n => Some (d, ds, n)
                  | _ => None
                  end) out.

Definition torch_loads (out : list event) : list string :=
  omap (fun ev => match ev with EvTorchLoad p => Some p | _ => None end) out.

Definition manual_seeds (out : list event) : list Z :=
  omap (fun ev => match ev with EvManualSeed s => Some s | _ => None end) out.

Definition optimizers_built (out : list event) : list (Q * Q) :=
  omap (fun ev => match ev with EvCreateOptimizer lr wd => Some (lr, wd) | _ => None end)
       out.

(** Scores of the [save_checkpoint] calls made with [is_best] set. *)
Definition best_flagged_scores (out : list event) : list Q :=
  (fun c => ck_score (fst c)) <$> filter (fun c => snd c = true) (save_calls out).

(** The effects the dataset selection (lines 64-88) can have. *)
Definition select_event (ev : event) : bool :=
  match ev with
  | EvPrint (MsgDataset _) | EvCreateDataset _ | EvCreateLoader _ | EvCreateLoss _ => true
  | _ => false
  end.

(** The effects the schedule (lines 90-120) can have. *)
Definition schedule_event (ev : event) : bool :=
  match ev with
  | EvLogging MsgEvaluating | EvLogging (MsgTraining _ _) | EvLogging (MsgTesting _)
  | EvLogging (MsgSaved _) | EvPrint (MsgNewBest _) | EvPrint (MsgPreviousScore _)
  | EvAdjustLR _ | EvTrain _ | EvTest _ _
  | EvSaveCheckpoint _ _ _ _ _ | EvWrite _ _ _ _ _ => true
  | _ => false
  end.

(** The effects that are not among those of lines 26-46. *)
Definition later_event (ev : event) : bool :=
  match ev with
  | EvCreateModel _ | EvManualSeed _ | EvSetEnv _ _ | EvCudaManualSeed _
  | EvCreateOptimizer _ _ => false
  | _ => true
  end.

(** A computation all of whose effects satisfy [P]. *)
Definition emits {A} (P : event -> bool) (m : M A) : Prop :=
  forall w, exists evs,
    w_out (snd (m w)) = (w_out w ++ evs)%list /\ Forall (fun ev => P ev = true) evs.

(** The names bound by lines 71-88 for a configuration. *)
Definition bound_of (cfg : Config) : Bound :=
  let shape := (TRAIN_CROP_SIZE (DATA cfg), TRAIN_CROP_SIZE (DATA cfg)) in
  let train_dataset :=
    {| ds_base := BASE_PTH (LISTDATA cfg); ds_file := TRAIN_FILE (LISTDATA cfg);
       ds_dataset := DATASET (TRAIN cfg); ds_shape := shape; ds_train := true;
       ds_clip_duration := NUM_FRAMES (DATA cfg);
       ds_sampling_rate := SAMPLING_RATE (DATA cfg) |} in
  let test_dataset :=
    {| ds_base := BASE_PTH (LISTDATA cfg); ds_file := TEST_FILE (LISTDATA cfg);
       ds_dataset := DATASET (TRAIN cfg); ds_shape := shape; ds_train := false;
       ds_clip_duration := NUM_FRAMES (DATA cfg);
       ds_sampling_rate := SAMPLING_RATE (DATA cfg) |} in
  {| train_loader :=
       {| dl_dataset := train_dataset; dl_batch_size := BATCH_SIZE (TRAIN cfg);
          dl_shuffle := true; dl_num_workers := NUM_WORKERS (DATA_LOADER cfg);
          dl_drop_last := true; dl_pin_memory := true |};
     test_loader :=
       {| dl_dataset := test_dataset; dl_batch_size := BATCH_SIZE (TRAIN cfg);
          dl_shuffle := false; dl_num_workers := NUM_WORKERS (DATA_LOADER cfg);
          dl_drop_last := false; dl_pin_memory := true |};
     loss_module := RegionLoss cfg;
     train := train_ucf24_jhmdb21;
     test := test_ucf24_jhmdb21 |}.

(** One epoch of training on the pair (model, optimizer): the learning rate
    is adjusted on the optimizer, then the training call runs (lines 98 and
    102). *)
Definition train_epoch (b : Bound) (cfg : Config) (mo : Net * Optimizer) (epoch : Z)
    : Net * Optimizer :=
  let '(_, optimizer) := adjust_learning_rate (snd mo) epoch cfg in
  train b cfg epoch (fst mo) (train_loader b) (loss_module b) optimizer.

(** The checkpoint dictionaries a loop over [es] builds, from the model and
    optimizer it starts with: each epoch trains on the pair the previous one
    left, and its record holds the state dictionaries after that training
    and the score of the evaluation of the trained model. *)
Fixpoint epoch_records (b : Bound) (cfg : Config) (mo : Net * Optimizer) (es : list Z)
    : list Checkpoint :=
  match es with
  | [] => []
  | e :: es' =>
      let mo' := train_epoch b cfg mo e in
      {| ck_epoch := e;
         ck_state_dict := state_dict (fst mo');
         ck_optimizer := opt_state_dict (snd mo');
         ck_score := test b cfg e (fst mo') (test_loader b) |}
      :: epoch_records b cfg mo' es'
  end.

(** The calls of one cycle, in order. *)
Definition cycle_phases (e : Z) : list (phase * Z) :=
  [(Adjusting, e); (Training, e); (Testing, e); (Saving, e)].

End Observations.

Section Properties.
Context `{K : Collaborators}.

Local Open Scope Q_scope.

Ltac munfold :=
  unfold mbind, M_bind, mret, M_ret, bind, ret, raise, emit, get_cfg,
    assign_BEGIN_EPOCH, logging, print, assert_, subscript, local in *.

(** ** Scores *)

Lemma Qgtb_true a b : Qgtb a b = true <-> b < a.
Proof.
  unfold Qgtb. rewrite Qlt_alt, <- (Qcompare_antisym a b).
  destruct (a ?= b); simpl; split; congruence.
Qed.

Lemma Qgtb_false a b : Qgtb a b = false <-> a <= b.
Proof.
  rewrite Qle_alt. unfold Qgtb.
  destruct (a ?= b); split; congruence.
Qed.

Lemma Qmax_update best s : Qmax best s = if Qgtb s best then s else best.
Proof.
  unfold Qmax, GenericMinMax.gmax, Qgtb.
  rewrite <- (Qcompare_antisym best s).
  destruct (best ?= s); reflexivity.
Qed.

Lemma update_ge best s : best <= (if Qgtb s best then s else best).
Proof.
  destruct (Qgtb s best) eqn:E.
  - apply Qlt_le_weak, Qgtb_true, E.
  - apply Qle_refl.
Qed.

Lemma fold_Qmax_ge (l : list Q) (seed : Q) : seed <= fold_left Qmax l seed.
Proof.
  revert seed. induction l as [|s l IH]; intros seed; simpl.
  - apply Qle_refl.
  - eapply Qle_trans; [|apply IH]. rewrite Qmax_update. apply update_ge.
Qed.

Lemma fold_Qmax_upper (l : list Q) (seed s : Q) :
  s ∈ l -> s <= fold_left Qmax l seed.
Proof.
  revert seed. induction l as [|x l IH]; intros seed Hin; simpl.
  - inversion Hin.
  - apply elem_of_cons in Hin as [->|Hin]; [|by apply IH].
    eapply Qle_trans; [|apply fold_Qmax_ge].
    rewrite Qmax_update. destruct (Qgtb x seed) eqn:E; [apply Qle_refl|].
    by apply Qgtb_false.
Qed.

Lemma fold_Qmax_attained (l : list Q) (seed : Q) :
  fold_left Qmax l seed = seed \/ fold_left Qmax l seed ∈ l.
Proof.
  revert seed. induction l as [|x l IH]; intros seed; simpl; [by left|].
  destruct (IH (Qmax seed x)) as [H|H].
  - rewrite H, Qmax_update. destruct (Qgtb x seed); [right; left|by left].
  - right. by right.
Qed.

(** ** Epoch ranges *)

Example py_range_closed : py_range 1 (3 + 1) = [1; 2; 3]%Z.
Proof. reflexivity. Qed.

Example py_range_empty : py_range 5 (4 + 1) = [].
Proof. reflexivity. Qed.

(** ** The monad *)

Lemma after_nil w : after w [] = w.
Proof. destruct w. unfold after. simpl. by rewrite app_nil_r. Qed.

Lemma after_after w evs1 evs2 : after (after w evs1) evs2 = after w (evs1 ++ evs2).
Proof. unfold after. simpl. by rewrite app_assoc. Qed.

Lemma for_in_app {A S} (xs ys : list A) (body : A -> S -> M S) (s : S) (w : World) :
  for_in (xs ++ ys) body s w =
  match for_in xs body s w with
  | (Return s', w') => for_in ys body s' w'
  | (Raise e, w') => (Raise e, w')
  end.
Proof.
  revert s w. induction xs as [|x xs IH]; intros s w; simpl; [done|].
  munfold. destruct (body x s w) as [[s'|e] w']; [apply IH|done].
Qed.

(** ** One cycle of the loop *)

Lemma epoch_cycle_bound (b : Bound) (e : Z) (l : Locals) (w : World) :
  exists l' lr s,
    cycle_step b (w_cfg w) e l l' lr s /\
    epoch_cycle (Some b) e l w =
      (Return l',
       after w (cycle_events (w_cfg w) e lr (checkpoint_of e l' s) (best_score l)
                             (Qgtb s (best_score l)))).
Proof.
  unfold epoch_cycle, save_checkpoint, cycle_step. munfold. simpl.
  destruct (adjust_learning_rate (optimizer l) e (w_cfg w)) as [lr o1] eqn:Hadj.
  destruct (train b (w_cfg w) e (model l) (train_loader b) (loss_module b) o1)
    as [m1 o2] eqn:Htrain.
  simpl.
  exists {| model := m1; optimizer := o2;
            best_score := if Qgtb (test b (w_cfg w) e m1 (test_loader b)) (best_score l)
                          then test b (w_cfg w) e m1 (test_loader b)
                          else best_score l |},
    lr, (test b (w_cfg w) e m1 (test_loader b)).
  split; [by exists o1|].
  unfold after, cycle_events, checkpoint_of.
  destruct (Qgtb _ (best_score l)); simpl; by rewrite <- !app_assoc.
Qed.

Lemma epoch_cycle_unbound (e : Z) (l : Locals) (w : World) :
  exists lr,
    epoch_cycle None e l w =
      (Raise (UnboundLocalError "train"),
       after w [EvAdjustLR e; EvLogging (MsgTraining e lr)]).
Proof.
  unfold epoch_cycle. munfold. simpl.
  destruct (adjust_learning_rate (optimizer l) e (w_cfg w)) as [lr o1].
  simpl. exists lr. unfold after. simpl. by rewrite <- app_assoc.
Qed.

(** ** The loop with its procedures bound *)

Lemma for_in_bound (b : Bound) (es : list Z) (l : Locals) (w : World) :
  exists l' evs,
    for_in es (epoch_cycle (Some b)) l w = (Return l', after w evs) /\
    cycles b (w_cfg w) es l l' evs.
Proof.
  revert l w. induction es as [|e es IH]; intros l w; simpl.
  - exists l, []. rewrite after_nil. split; [done|constructor].
  - destruct (epoch_cycle_bound b e l w) as (l1 & lr & s & Hstep & Hrun).
    destruct (IH l1 (after w (cycle_events (w_cfg w) e lr (checkpoint_of e l1 s)
                (best_score l) (Qgtb s (best_score l))))) as (l2 & evs & Hrest & Hcyc).
    exists l2, (cycle_events (w_cfg w) e lr (checkpoint_of e l1 s)
                  (best_score l) (Qgtb s (best_score l)) ++ evs)%list.
    split.
    + munfold. rewrite Hrun, Hrest. by rewrite after_after.
    + econstructor; eassumption.
Qed.

Lemma for_in_unbound (es : list Z) (l : Locals) (w : World) :
  es <> [] ->
  exists e lr,
    head es = Some e /\
    for_in es (epoch_cycle None) l w =
      (Raise (UnboundLocalError "train"),
       after w [EvAdjustLR e; EvLogging (MsgTraining e lr)]).
Proof.
  destruct es as [|e es]; [done|]. intros _.
  destruct (epoch_cycle_unbound e l w) as [lr Hlr].
  exists e, lr. split; [done|]. simpl. munfold. by rewrite Hlr.
Qed.

(** ** Projections of the effects of completed cycles *)

Lemma cycle_events_projections cfg e lr st prev is_best :
  let evs := cycle_events cfg e lr st prev is_best in
  adjusted_epochs evs = [e] /\ trained_epochs evs = [e] /\
  tested_epochs evs = [e] /\ scores_seen evs = [ck_score st] /\
  save_calls evs = [(st, is_best)] /\ writes_to Latest evs = [st] /\
  writes_to Best evs = (if is_best then [st] else []) /\
  models_built evs = [].
Proof. destruct is_best; repeat split; reflexivity. Qed.

Lemma cycles_epochs b cfg es l l' evs :
  cycles b cfg es l l' evs ->
  adjusted_epochs evs = es /\ trained_epochs evs = es /\ tested_epochs evs = es.
Proof.
  induction 1 as [|e es l l1 l2 lr s evs Hstep Hcyc (IH1 & IH2 & IH3)]; [done|].
  destruct (cycle_events_projections cfg e lr (checkpoint_of e l1 s) (best_score l)
              (Qgtb s (best_score l))) as (H1 & H2 & H3 & _).
  unfold adjusted_epochs, trained_epochs, tested_epochs in *.
  rewrite !omap_app, H1, H2, H3, IH1, IH2, IH3. done.
Qed.

Lemma cycles_best_score b cfg es l l' evs :
  cycles b cfg es l l' evs ->
  length (scores_seen evs) = length es /\
  best_score l' = fold_left Qmax (scores_seen evs) (best_score l).
Proof.
  induction 1 as [|e es l l1 l2 lr s evs Hstep Hcyc [IH1 IH2]]; [done|].
  destruct (cycle_events_projections cfg e lr (checkpoint_of e l1 s) (best_score l)
              (Qgtb s (best_score l))) as (_ & _ & _ & H4 & _).
  destruct Hstep as (o1 & _ & _ & _ & Hbest).
  unfold scores_seen in *. rewrite omap_app, H4. simpl.
  rewrite IH1, IH2, Hbest, Qmax_update. done.
Qed.

Lemma cycles_saves b cfg es l l' evs :
  cycles b cfg es l l' evs ->
  ck_epoch <$> writes_to Latest evs = es /\
  ck_score <$> writes_to Latest evs = scores_seen evs /\
  writes_to Latest evs = fst <$> save_calls evs /\
  writes_to Best evs = fst <$> filter (fun c => snd c = true) (save_calls evs) /\
  models_built evs = [].
Proof.
  induction 1 as [|e es l l1 l2 lr s evs Hstep Hcyc (IH1 & IH2 & IH3 & IH4 & IH5)];
    [done|].
  destruct (cycle_events_projections cfg e lr (checkpoint_of e l1 s) (best_score l)
              (Qgtb s (best_score l))) as (_ & _ & _ & H4 & H5 & H6 & H7 & H8).
  unfold writes_to, save_calls, scores_seen, models_built in *.
  rewrite !omap_app, H4, H5, H6, H7, H8, IH3, IH4, IH5.
  rewrite !fmap_app, <- IH3, IH1, IH2. simpl.
  repeat split; try done.
  rewrite filter_cons. simpl. by destruct (Qgtb s (best_score l)).
Qed.

(** ** Lines 26-46 *)

Lemma prologue_unfold (fs : gmap string File) (cfg : Config) :
  prologue fs (start cfg) =
  match resume fs (init_locals cfg) (after (start cfg) (init_events cfg)) with
  | (Return l, w) =>
      match select_dataset w with
      | (Return env, w') => (Return (l, env), w')
      | (Raise e, w') => (Raise e, w')
      end
  | (Raise e, w) => (Raise e, w)
  end.
Proof.
  unfold prologue, create_model, set_seeds, create_optimizer, init_events,
    init_locals, after, start.
  munfold. simpl. destruct cuda_is_available; reflexivity.
Qed.

Lemma main_unfold (fs : gmap string File) (w : World) :
  main fs w =
  match prologue fs w with
  | (Return (l, env), w') => schedule env l w'
  | (Raise e, w') => (Raise e, w')
  end.
Proof. unfold main. munfold. by destruct (prologue fs w) as [[[l env]|e] w']. Qed.

(** ** The resume step *)

Lemma resume_absent (fs : gmap string File) (l : Locals) (w : World) :
  fs !! RESUME_PATH (TRAIN (w_cfg w)) = None ->
  resume fs l w = (Return l, w).
Proof.
  intros Hno. unfold resume, isfile. munfold. rewrite Hno.
  rewrite bool_decide_eq_false_2; [done|]. by intros [? ?].
Qed.

Lemma resume_loaded (fs : gmap string File) (l : Locals) (w : World) d k s sd osd :
  fs !! RESUME_PATH (TRAIN (w_cfg w)) = Some (Pickled d) ->
  ld_epoch d = Some k -> ld_score d = Some s ->
  ld_state_dict d = Some sd -> ld_optimizer d = Some osd ->
  resume fs l w =
    (Return {| model := load_state_dict (model l) sd;
               optimizer := opt_load_state_dict (optimizer l) osd;
               best_score := s |},
     {| w_cfg := set_BEGIN_EPOCH (k + 1) (w_cfg w);
        w_out := w_out w ++ resume_events (RESUME_PATH (TRAIN (w_cfg w))) s sd osd |}).
Proof.
  intros Hf Hk Hs Hsd Hosd. unfold resume, isfile, torch_load. munfold.
  rewrite Hf. rewrite bool_decide_eq_true_2 by eauto.
  simpl. rewrite Hk, Hs, Hsd, Hosd. simpl.
  unfold resume_events. by rewrite <- !app_assoc.
Qed.

Lemma well_formed_keys (d : LoadedDict) :
  well_formed (Pickled d) = true ->
  exists k s sd osd,
    ld_epoch d = Some k /\ ld_score d = Some s /\
    ld_state_dict d = Some sd /\ ld_optimizer d = Some osd.
Proof.
  unfold well_formed. rewrite !andb_true_iff, !bool_decide_eq_true.
  intros [[[[k Hk] [s Hs]] [sd Hsd]] [osd Hosd]]. eauto 10.
Qed.

Lemma resume_malformed (fs : gmap string File) (l : Locals) (w : World) f :
  fs !! RESUME_PATH (TRAIN (w_cfg w)) = Some f ->
  well_formed f = false ->
  exists e w', resume fs l w = (Raise e, w').
Proof.
  intros Hf Hwf. unfold resume, isfile, torch_load. munfold.
  rewrite Hf. rewrite bool_decide_eq_true_2 by eauto.
  simpl. destruct f as [|d]; simpl; [eauto|].
  destruct d as [[k|] [s|] [sd|] [osd|]]; simpl in *; try discriminate; eauto.
Qed.

(** Whatever the file, the step only prints, loads and assigns the begin
    epoch. *)
Lemma resume_effects (fs : gmap string File) (l : Locals) (w : World) :
  exists rest v,
    w_out (snd (resume fs l w)) = (w_out w ++ rest)%list /\
    Forall (fun ev => resume_event ev = true) rest /\
    w_cfg (snd (resume fs l w)) = set_BEGIN_EPOCH v (w_cfg w).
Proof.
  assert (Heta : forall c, set_BEGIN_EPOCH (BEGIN_EPOCH (TRAIN c)) c = c)
    by (by intros [[] ? ? ? ? ?]).
  destruct (fs !! RESUME_PATH (TRAIN (w_cfg w))) as [f|] eqn:Hf.
  - unfold resume, isfile, torch_load. munfold.
    rewrite Hf. rewrite bool_decide_eq_true_2 by eauto.
    simpl. destruct f as [|d]; simpl.
    { exists [EvPrint MsgRule; EvPrint (MsgLoadingCheckpoint (RESUME_PATH (TRAIN (w_cfg w))));
              EvTorchLoad (RESUME_PATH (TRAIN (w_cfg w)))],
        (BEGIN_EPOCH (TRAIN (w_cfg w))).
      rewrite <- !app_assoc, Heta. repeat split; try done.
      repeat constructor. }
    destruct d as [[k|] [s|] [sd|] [osd|]]; simpl;
      eexists _, _; rewrite <- !app_assoc; simpl;
      (split; [reflexivity|split; [repeat constructor|]]);
      first [reflexivity | symmetry; apply Heta].
  - rewrite resume_absent by done. exists [], (BEGIN_EPOCH (TRAIN (w_cfg w))).
    simpl. rewrite app_nil_r, Heta. repeat split; constructor.
Qed.

(** ** Dataset selection *)

Lemma select_supported (w : World) :
  DATASET (TRAIN (w_cfg w)) = "ucf24" \/ DATASET (TRAIN (w_cfg w)) = "jhmdb21" ->
  exists b evs,
    select_dataset w = (Return (Some b), after w evs) /\
    Forall (fun ev => setup_event ev = true) evs /\
    models_built evs = [] /\
    train b = train_ucf24_jhmdb21 /\ test b = test_ucf24_jhmdb21.
Proof.
  intros [H|H]; unfold select_dataset; munfold; rewrite H; simpl;
    eexists _, _; (split; [unfold after; rewrite <- !app_assoc; reflexivity|]);
    repeat split; repeat constructor.
Qed.

Lemma select_ava (w : World) :
  DATASET (TRAIN (w_cfg w)) = "ava" ->
  select_dataset w = (Return None, after w [EvPrint (MsgDataset "ava")]).
Proof. intros H. unfold select_dataset. munfold. by rewrite H. Qed.

Lemma select_invalid (w : World) :
  DATASET (TRAIN (w_cfg w)) <> "ucf24" ->
  DATASET (TRAIN (w_cfg w)) <> "jhmdb21" ->
  DATASET (TRAIN (w_cfg w)) <> "ava" ->
  select_dataset w = (Raise (AssertionError "invalid dataset"), w).
Proof.
  intros H1%String.eqb_neq H2%String.eqb_neq H3%String.eqb_neq.
  unfold select_dataset. munfold. by rewrite H1, H2, H3.
Qed.

(** ** The schedule *)

Lemma schedule_evaluate (b : Bound) (l : Locals) (w : World) :
  EVALUATE (TRAIN (w_cfg w)) = true ->
  schedule (Some b) l w =
    (Return tt,
     after w [EvLogging MsgEvaluating;
              EvTest 0 (test b (w_cfg w) 0 (model l) (test_loader b))]).
Proof.
  intros H. unfold schedule. munfold. rewrite H. simpl.
  unfold after. by rewrite <- app_assoc.
Qed.

Lemma schedule_evaluate_unbound (l : Locals) (w : World) :
  EVALUATE (TRAIN (w_cfg w)) = true ->
  schedule None l w =
    (Raise (UnboundLocalError "test"), after w [EvLogging MsgEvaluating]).
Proof. intros H. unfold schedule. munfold. by rewrite H. Qed.

Lemma schedule_train (b : Bound) (l : Locals) (w : World) :
  EVALUATE (TRAIN (w_cfg w)) = false ->
  exists l' evs,
    schedule (Some b) l w = (Return tt, after w evs) /\
    training_loop (Some b) l w = (Return l', after w evs) /\
    cycles b (w_cfg w)
      (py_range (BEGIN_EPOCH (TRAIN (w_cfg w))) (END_EPOCH (TRAIN (w_cfg w)) + 1))
      l l' evs.
Proof.
  intros H.
  destruct (for_in_bound b
    (py_range (BEGIN_EPOCH (TRAIN (w_cfg w))) (END_EPOCH (TRAIN (w_cfg w)) + 1)) l w)
    as (l' & evs & Hrun & Hcyc).
  exists l', evs. unfold schedule, training_loop. munfold. rewrite H, Hrun. done.
Qed.

Lemma schedule_train_unbound_empty (l : Locals) (w : World) :
  EVALUATE (TRAIN (w_cfg w)) = false ->
  (END_EPOCH (TRAIN (w_cfg w)) < BEGIN_EPOCH (TRAIN (w_cfg w)))%Z ->
  schedule None l w = (Return tt, w).
Proof.
  intros H Hlt. unfold schedule, training_loop, py_range. munfold. rewrite H.
  rewrite seqZ_nil by lia. done.
Qed.

Lemma schedule_train_unbound (l : Locals) (w : World) :
  EVALUATE (TRAIN (w_cfg w)) = false ->
  (BEGIN_EPOCH (TRAIN (w_cfg w)) <= END_EPOCH (TRAIN (w_cfg w)))%Z ->
  exists lr,
    schedule None l w =
      (Raise (UnboundLocalError "train"),
       after w [EvAdjustLR (BEGIN_EPOCH (TRAIN (w_cfg w)));
                EvLogging (MsgTraining (BEGIN_EPOCH (TRAIN (w_cfg w))) lr)]).
Proof.
  intros H Hle. unfold schedule, training_loop, py_range. munfold. rewrite H.
  rewrite seqZ_cons by lia. simpl. munfold.
  destruct (epoch_cycle_unbound (BEGIN_EPOCH (TRAIN (w_cfg w))) l w) as [lr Hlr].
  exists lr. by rewrite Hlr.
Qed.

Lemma py_range_length (b e : Z) :
  (b <= e)%Z -> Z.of_nat (length (py_range b (e + 1))) = (e - b + 1)%Z.
Proof. intros H. unfold py_range. rewrite length_seqZ. lia. Qed.

Lemma py_range_elem (b e x : Z) : x ∈ py_range b (e + 1) <-> (b <= x <= e)%Z.
Proof. unfold py_range. rewrite elem_of_seqZ. lia. Qed.

(** ** Effects of the set-up never look like effects of the schedule *)

Lemma setup_projections (evs : list event) :
  Forall (fun ev => setup_event ev = true) evs ->
  adjusted_epochs evs = [] /\ trained_epochs evs = [] /\ tested_epochs evs = [] /\
  scores_seen evs = [] /\ save_calls evs = [] /\
  writes_to Latest evs = [] /\ writes_to Best evs = [].
Proof.
  induction 1 as [|ev evs Hev _ IH]; [done|].
  destruct IH as (H1 & H2 & H3 & H4 & H5 & H6 & H7).
  unfold adjusted_epochs, trained_epochs, tested_epochs, scores_seen, save_calls,
    writes_to in *.
  destruct ev; simpl in *; try discriminate; by rewrite ?H1, ?H2, ?H3, ?H4, ?H5, ?H6, ?H7.
Qed.

Lemma resume_event_setup (evs : list event) :
  Forall (fun ev => resume_event ev = true) evs ->
  Forall (fun ev => setup_event ev = true) evs /\ models_built evs = [].
Proof.
  induction 1 as [|ev evs Hev _ [IH1 IH2]]; [done|].
  split.
  - constructor; [|done]. destruct ev; simpl in *; done.
  - unfold models_built in *. destruct ev; simpl in *; try discriminate; done.
Qed.

Lemma init_events_setup (cfg : Config) :
  Forall (fun ev => setup_event ev = true) (init_events cfg) /\
  models_built (init_events cfg) = [cfg] /\
  head (init_events cfg) = Some (EvCreateModel cfg).
Proof.
  unfold init_events. destruct cuda_is_available; repeat split; repeat constructor.
Qed.

Lemma resume_events_resume path s sd osd :
  Forall (fun ev => resume_event ev = true) (resume_events path s sd osd).
Proof. repeat constructor. Qed.

Lemma resume_result_effects fs cfg l cfg' rest :
  resume_result fs cfg l cfg' rest ->
  Forall (fun ev => resume_event ev = true) rest /\
  cfg' = set_BEGIN_EPOCH (BEGIN_EPOCH (TRAIN cfg')) cfg.
Proof.
  destruct 1.
  - split; [constructor|]. by destruct cfg as [[] ? ? ? ? ?].
  - split; [apply resume_events_resume|done].
Qed.

(** ** Lines 26-62 on the store in which [main] starts *)

Lemma resume_stage (fs : gmap string File) (cfg : Config) :
  resumable fs cfg = true ->
  exists l cfg' rest,
    resume fs (init_locals cfg) (after (start cfg) (init_events cfg)) =
      (Return l, {| w_cfg := cfg'; w_out := init_events cfg ++ rest |}) /\
    resume_result fs cfg l cfg' rest.
Proof.
  unfold resumable. intros Hok.
  destruct (fs !! RESUME_PATH (TRAIN cfg)) as [[|d]|] eqn:Hf; [done| |].
  - destruct (well_formed_keys d Hok) as (k & s & sd & osd & Hk & Hs & Hsd & Hosd).
    eexists _, _, _. split.
    + erewrite resume_loaded by (simpl; eassumption). reflexivity.
    + by econstructor.
  - exists (init_locals cfg), cfg, []. split.
    + rewrite resume_absent by done. simpl. by rewrite app_nil_r.
    + by constructor.
Qed.

Lemma resume_stage_fatal (fs : gmap string File) (cfg : Config) :
  resumable fs cfg = false ->
  exists e rest v,
    resume fs (init_locals cfg) (after (start cfg) (init_events cfg)) =
      (Raise e, {| w_cfg := set_BEGIN_EPOCH v cfg; w_out := init_events cfg ++ rest |}) /\
    Forall (fun ev => resume_event ev = true) rest.
Proof.
  unfold resumable. intros Hbad.
  destruct (fs !! RESUME_PATH (TRAIN cfg)) as [f|] eqn:Hf; [|done].
  destruct (resume_malformed fs (init_locals cfg) (after (start cfg) (init_events cfg))
              f Hf Hbad) as (e & w' & Hrun).
  destruct (resume_effects fs (init_locals cfg) (after (start cfg) (init_events cfg)))
    as (rest & v & Hout & Hrest & Hcfg).
  rewrite Hrun in Hout, Hcfg. simpl in *.
  exists e, rest, v. split; [|done]. rewrite Hrun. f_equal.
  destruct w'. simpl in *. by subst.
Qed.

Lemma models_built_app (xs ys : list event) :
  models_built (xs ++ ys) = (models_built xs ++ models_built ys)%list.
Proof. apply omap_app. Qed.

Lemma prologue_supported (fs : gmap string File) (cfg : Config) :
  DATASET (TRAIN cfg) = "ucf24" \/ DATASET (TRAIN cfg) = "jhmdb21" ->
  resumable fs cfg = true ->
  exists l cfg' b pre,
    prologue fs (start cfg) = (Return (l, Some b), {| w_cfg := cfg'; w_out := pre |}) /\
    (exists rest, resume_result fs cfg l cfg' rest) /\
    Forall (fun ev => setup_event ev = true) pre /\
    models_built pre = [cfg] /\
    train b = train_ucf24_jhmdb21 /\ test b = test_ucf24_jhmdb21.
Proof.
  intros Hds Hok.
  destruct (resume_stage fs cfg Hok) as (l & cfg' & rest & Hres & Hrr).
  destruct (resume_result_effects _ _ _ _ _ Hrr) as [Hrest Hcfg'].
  destruct (select_supported {| w_cfg := cfg'; w_out := init_events cfg ++ rest |})
    as (b & evs & Hsel & Hevs & Hmb & Htrain & Htest).
  { simpl. rewrite Hcfg'. exact Hds. }
  exists l, cfg', b, ((init_events cfg ++ rest) ++ evs)%list.
  rewrite prologue_unfold, Hres, Hsel.
  destruct (init_events_setup cfg) as (Hi1 & Hi2 & _).
  destruct (resume_event_setup rest Hrest) as [Hr1 Hr2].
  repeat split; eauto.
  - apply Forall_app_2; [apply Forall_app_2|]; done.
  - by rewrite !models_built_app, Hi2, Hr2, Hmb.
Qed.

(** The epochs a checkpoint at the resume path leaves to run. *)
Lemma resume_result_begin fs cfg l cfg' rest :
  resume_result fs cfg l cfg' rest ->
  END_EPOCH (TRAIN cfg') = END_EPOCH (TRAIN cfg) /\
  EVALUATE (TRAIN cfg') = EVALUATE (TRAIN cfg) /\
  (fs !! RESUME_PATH (TRAIN cfg) = None ->
     BEGIN_EPOCH (TRAIN cfg') = BEGIN_EPOCH (TRAIN cfg) /\ best_score l = 0) /\
  (forall d, fs !! RESUME_PATH (TRAIN cfg) = Some (Pickled d) ->
     ld_epoch d = Some (BEGIN_EPOCH (TRAIN cfg') - 1)%Z /\
     ld_score d = Some (best_score l)).
Proof.
  intros Hrr. destruct Hrr as [Hno|d0 k s sd osd Hf Hk Hs Hsd Hosd]; simpl.
  - split; [done|]. split; [done|]. split; [done|].
    intros d Hd. congruence.
  - split; [done|]. split; [done|]. split; [intros Hno; congruence|].
    intros d' Hd'. assert (d' = d0) as -> by congruence.
    split; [|done]. rewrite Hk. f_equal. lia.
Qed.

Lemma prologue_ava (fs : gmap string File) (cfg : Config) :
  DATASET (TRAIN cfg) = "ava" ->
  resumable fs cfg = true ->
  exists l cfg' pre,
    prologue fs (start cfg) = (Return (l, None), {| w_cfg := cfg'; w_out := pre |}) /\
    (exists rest, resume_result fs cfg l cfg' rest) /\
    Forall (fun ev => setup_event ev = true) pre /\
    models_built pre = [cfg].
Proof.
  intros Hds Hok.
  destruct (resume_stage fs cfg Hok) as (l & cfg' & rest & Hres & Hrr).
  destruct (resume_result_effects _ _ _ _ _ Hrr) as [Hrest Hcfg'].
  exists l, cfg', ((init_events cfg ++ rest) ++ [EvPrint (MsgDataset "ava")])%list.
  rewrite prologue_unfold, Hres, select_ava by (simpl; rewrite Hcfg'; exact Hds).
  destruct (init_events_setup cfg) as (Hi1 & Hi2 & _).
  destruct (resume_event_setup rest Hrest) as [Hr1 Hr2].
  repeat split; eauto.
  - apply Forall_app_2; [apply Forall_app_2|]; try done. by repeat constructor.
  - by rewrite !models_built_app, Hi2, Hr2.
Qed.

Lemma prologue_invalid (fs : gmap string File) (cfg : Config) :
  DATASET (TRAIN cfg) <> "ucf24" -> DATASET (TRAIN cfg) <> "jhmdb21" ->
  DATASET (TRAIN cfg) <> "ava" ->
  exists e v rest,
    prologue fs (start cfg) =
      (Raise e, {| w_cfg := set_BEGIN_EPOCH v cfg; w_out := init_events cfg ++ rest |}) /\
    Forall (fun ev => resume_event ev = true) rest /\
    (resumable fs cfg = true -> e = AssertionError "invalid dataset").
Proof.
  intros H1 H2 H3. destruct (resumable fs cfg) eqn:Hok.
  - destruct (resume_stage fs cfg Hok) as (l & cfg' & rest & Hres & Hrr).
    destruct (resume_result_effects _ _ _ _ _ Hrr) as [Hrest Hcfg'].
    exists (AssertionError "invalid dataset"), (BEGIN_EPOCH (TRAIN cfg')), rest.
    rewrite prologue_unfold, Hres, select_invalid by (simpl; by rewrite Hcfg').
    by rewrite <- Hcfg'.
  - destruct (resume_stage_fatal fs cfg Hok) as (e & rest & v & Hres & Hrest).
    exists e, v, rest. by rewrite prologue_unfold, Hres.
Qed.

Lemma prologue_resume_fatal (fs : gmap string File) (cfg : Config) :
  resumable fs cfg = false ->
  exists e v rest,
    prologue fs (start cfg) =
      (Raise e, {| w_cfg := set_BEGIN_EPOCH v cfg; w_out := init_events cfg ++ rest |}) /\
    Forall (fun ev => resume_event ev = true) rest.
Proof.
  intros Hok. destruct (resume_stage_fatal fs cfg Hok) as (e & rest & v & Hres & Hrest).
  exists e, v, rest. by rewrite prologue_unfold, Hres.
Qed.

Lemma dataset_cases (d : string) :
  (d = "ucf24" \/ d = "jhmdb21") \/ d = "ava" \/
  (d <> "ucf24" /\ d <> "jhmdb21" /\ d <> "ava").
Proof.
  destruct (decide (d = "ucf24")); [by left; left|].
  destruct (decide (d = "jhmdb21")); [by left; right|].
  destruct (decide (d = "ava")); [by right; left|by right; right].
Qed.

(** A run that reaches the loop with its procedures bound. *)
Lemma main_training_run (fs : gmap string File) (cfg : Config) :
  DATASET (TRAIN cfg) = "ucf24" \/ DATASET (TRAIN cfg) = "jhmdb21" ->
  resumable fs cfg = true ->
  EVALUATE (TRAIN cfg) = false ->
  exists l cfg' b pre l' evs,
    prologue fs (start cfg) = (Return (l, Some b), {| w_cfg := cfg'; w_out := pre |}) /\
    main fs (start cfg) = (Return tt, {| w_cfg := cfg'; w_out := pre ++ evs |}) /\
    (exists rest, resume_result fs cfg l cfg' rest) /\
    Forall (fun ev => setup_event ev = true) pre /\
    models_built pre = [cfg] /\
    cycles b cfg' (py_range (BEGIN_EPOCH (TRAIN cfg')) (END_EPOCH (TRAIN cfg) + 1))
           l l' evs.
Proof.
  intros Hds Hok Hev.
  destruct (prologue_supported fs cfg Hds Hok)
    as (l & cfg' & b & pre & Hpro & [rest Hrr] & Hpre & Hmb & _).
  destruct (resume_result_begin _ _ _ _ _ Hrr) as (Hend & Heval & _).
  destruct (schedule_train b l {| w_cfg := cfg'; w_out := pre |})
    as (l' & evs & Hsch & _ & Hcyc).
  { simpl. congruence. }
  simpl in Hcyc. rewrite Hend in Hcyc.
  exists l, cfg', b, pre, l', evs.
  repeat split; eauto. by rewrite main_unfold, Hpro.
Qed.

(** C1, as amended. For every configuration with the evaluate-only flag
    unset, dataset ucf24 or jhmdb21 and a resume step that does not fail,
    [main] returns normally and its loop runs one adjust/train/evaluate cycle
    for each epoch from b' through e inclusive and for no other epoch, in
    increasing order (so exactly e - b' + 1 cycles when b' <= e, none when
    b' > e). Here e is the configured end epoch and b' is the begin epoch the
    configuration object holds when the loop starts: the configured begin
    epoch when no file exists at the resume path, the stored epoch plus one
    after a resume. *)
Theorem training_cycles_cover_epoch_range (fs : gmap string File) (cfg : Config) :
  DATASET (TRAIN cfg) = "ucf24" \/ DATASET (TRAIN cfg) = "jhmdb21" ->
  resumable fs cfg = true ->
  EVALUATE (TRAIN cfg) = false ->
  exists w',
    main fs (start cfg) = (Return tt, w') /\
    let b' := BEGIN_EPOCH (TRAIN (w_cfg w')) in
    let e := END_EPOCH (TRAIN cfg) in
    (fs !! RESUME_PATH (TRAIN cfg) = None -> b' = BEGIN_EPOCH (TRAIN cfg)) /\
    (forall d k, fs !! RESUME_PATH (TRAIN cfg) = Some (Pickled d) ->
       ld_epoch d = Some k -> b' = (k + 1)%Z) /\
    adjusted_epochs (w_out w') = py_range b' (e + 1) /\
    trained_epochs (w_out w') = py_range b' (e + 1) /\
    tested_epochs (w_out w') = py_range b' (e + 1) /\
    (forall x, x ∈ trained_epochs (w_out w') <-> (b' <= x <= e)%Z) /\
    ((b' <= e)%Z ->
       Z.of_nat (length (trained_epochs (w_out w'))) = (e - b' + 1)%Z /\
       Z.of_nat (length (tested_epochs (w_out w'))) = (e - b' + 1)%Z) /\
    ((e < b')%Z -> trained_epochs (w_out w') = [] /\ tested_epochs (w_out w') = []).
Proof.
  intros Hds Hok Hev.
  destruct (main_training_run fs cfg Hds Hok Hev)
    as (l & cfg' & b & pre & l' & evs & _ & Hmain & [rest Hrr] & Hpre & _ & Hcyc).
  destruct (resume_result_begin _ _ _ _ _ Hrr) as (Hend & Heval & Hfresh & Hload).
  destruct (cycles_epochs _ _ _ _ _ _ Hcyc) as (Ha & Ht & Hs).
  destruct (setup_projections pre Hpre) as (Pa & Pt & Ps & _).
  exists {| w_cfg := cfg'; w_out := pre ++ evs |}.
  split; [done|].
  simpl.
  assert (Ha' : adjusted_epochs (pre ++ evs) = py_range (BEGIN_EPOCH (TRAIN cfg'))
                  (END_EPOCH (TRAIN cfg) + 1)).
  { unfold adjusted_epochs in *. by rewrite omap_app, Pa, Ha. }
  assert (Ht' : trained_epochs (pre ++ evs) = py_range (BEGIN_EPOCH (TRAIN cfg'))
                  (END_EPOCH (TRAIN cfg) + 1)).
  { unfold trained_epochs in *. by rewrite omap_app, Pt, Ht. }
  assert (Hs' : tested_epochs (pre ++ evs) = py_range (BEGIN_EPOCH (TRAIN cfg'))
                  (END_EPOCH (TRAIN cfg) + 1)).
  { unfold tested_epochs in *. by rewrite omap_app, Ps, Hs. }
  rewrite Ha', Ht', Hs'.
  split; [by intros Hno; apply Hfresh|].
  split.
  { intros d k Hd Hk. destruct (Hload d Hd) as [Hk' _].
    rewrite Hk in Hk'. injection Hk' as ->. lia. }
  split; [done|]. split; [done|]. split; [done|].
  split; [intros x; apply py_range_elem|].
  split.
  - intros Hle. split; by apply py_range_length.
  - intros Hlt. unfold py_range. rewrite seqZ_nil by lia. done.
Qed.

(** C4, as amended. For every configuration with the evaluate-only flag set,
    dataset ucf24 or jhmdb21 and a resume step that does not fail, whatever
    its begin and end epochs, [main] returns normally after exactly one
    evaluation call, at epoch 0, no learning-rate adjustment, no training
    call, no [save_checkpoint] call and no write to either slot. *)
Theorem evaluate_only_single_evaluation (fs : gmap string File) (cfg : Config) :
  DATASET (TRAIN cfg) = "ucf24" \/ DATASET (TRAIN cfg) = "jhmdb21" ->
  resumable fs cfg = true ->
  EVALUATE (TRAIN cfg) = true ->
  exists w',
    main fs (start cfg) = (Return tt, w') /\
    tested_epochs (w_out w') = [0%Z] /\
    adjusted_epochs (w_out w') = [] /\
    trained_epochs (w_out w') = [] /\
    save_calls (w_out w') = [] /\
    writes_to Latest (w_out w') = [] /\
    writes_to Best (w_out w') = [].
Proof.
  intros Hds Hok Hev.
  destruct (prologue_supported fs cfg Hds Hok)
    as (l & cfg' & b & pre & Hpro & [rest Hrr] & Hpre & _).
  destruct (resume_result_begin _ _ _ _ _ Hrr) as (_ & Heval & _).
  eexists. split.
  { rewrite main_unfold, Hpro. apply schedule_evaluate. simpl. congruence. }
  destruct (setup_projections pre Hpre) as (Pa & Pt & Ps & _ & Pc & Pl & Pb).
  unfold after, tested_epochs, adjusted_epochs, trained_epochs, save_calls,
    writes_to in *.
  simpl. rewrite !omap_app, Pa, Pt, Ps, Pc, Pl, Pb. done.
Qed.

(** ** Completed cycles, whatever the bindings *)

Lemma epoch_cycle_returned env e l w l' w' :
  epoch_cycle env e l w = (Return l', w') ->
  exists b lr s,
    env = Some b /\ cycle_step b (w_cfg w) e l l' lr s /\
    w' = after w (cycle_events (w_cfg w) e lr (checkpoint_of e l' s) (best_score l)
                               (Qgtb s (best_score l))).
Proof.
  intros Hrun. destruct env as [b|].
  - destruct (epoch_cycle_bound b e l w) as (l1 & lr & s & Hstep & Hrun').
    rewrite Hrun' in Hrun. injection Hrun as <- <-. eauto 10.
  - destruct (epoch_cycle_unbound e l w) as [lr Hrun'].
    rewrite Hrun' in Hrun. discriminate.
Qed.

Lemma for_in_returned env es l w l' w' :
  for_in es (epoch_cycle env) l w = (Return l', w') ->
  exists evs,
    w' = after w evs /\
    match env with
    | Some b => cycles b (w_cfg w) es l l' evs
    | None => es = [] /\ l' = l /\ evs = []
    end.
Proof.
  intros Hrun. destruct env as [b|].
  - destruct (for_in_bound b es l w) as (l1 & evs & Hrun' & Hcyc).
    rewrite Hrun' in Hrun. injection Hrun as <- <-. eauto.
  - destruct es as [|e es].
    + simpl in Hrun. munfold. injection Hrun as <- <-.
      exists []. by rewrite after_nil.
    + destruct (for_in_unbound (e :: es) l w) as (e' & lr & _ & Hrun'); [done|].
      rewrite Hrun' in Hrun. discriminate.
Qed.

Lemma prologue_returned (fs : gmap string File) (cfg : Config) l env w1 :
  prologue fs (start cfg) = (Return (l, env), w1) ->
  exists rest, resume_result fs cfg l (w_cfg w1) rest.
Proof.
  intros Hpro. destruct (resumable fs cfg) eqn:Hok.
  - destruct (dataset_cases (DATASET (TRAIN cfg))) as [Hds|[Hds|(H1 & H2 & H3)]].
    + destruct (prologue_supported fs cfg Hds Hok)
        as (l0 & cfg' & b & pre & Hpro' & Hrr & _).
      rewrite Hpro' in Hpro. by injection Hpro as <- <- <-.
    + destruct (prologue_ava fs cfg Hds Hok) as (l0 & cfg' & pre & Hpro' & Hrr & _).
      rewrite Hpro' in Hpro. by injection Hpro as <- <- <-.
    + destruct (prologue_invalid fs cfg H1 H2 H3) as (e & v & rest & Hpro' & _).
      rewrite Hpro' in Hpro. discriminate.
  - destruct (prologue_resume_fatal fs cfg Hok) as (e & v & rest & Hpro' & _).
    rewrite Hpro' in Hpro. discriminate.
Qed.

(** C2, as amended. When the resume path names a checkpoint file holding
    epoch k, score s, model state sd and optimizer state osd, the resume
    step, from any initialised model, optimizer and best score, returns
    normally with the begin epoch set to k + 1 (nothing else of the
    configuration changes), the best score set to s exactly as stored (so it
    is at least the 0 of a fresh run exactly when s is), and the model and
    optimizer holding the stored states sd and osd whatever they held
    before. In a training run on ucf24 or jhmdb21 with k + 1 no greater
    than the end epoch, the first epoch trained is k + 1. *)
Theorem resume_restores_checkpoint (fs : gmap string File) (cfg : Config)
    (d : LoadedDict) (k : Z) (s : Q) (sd : NetState) (osd : OptState) :
  fs !! RESUME_PATH (TRAIN cfg) = Some (Pickled d) ->
  ld_epoch d = Some k -> ld_score d = Some s ->
  ld_state_dict d = Some sd -> ld_optimizer d = Some osd ->
  (forall (l0 : Locals) (w0 : World),
     w_cfg w0 = cfg ->
     exists l w,
       resume fs l0 w0 = (Return l, w) /\
       w_cfg w = set_BEGIN_EPOCH (k + 1) cfg /\
       BEGIN_EPOCH (TRAIN (w_cfg w)) = (k + 1)%Z /\
       best_score l = s /\
       (0 <= best_score l <-> 0 <= s) /\
       state_dict (model l) = sd /\
       opt_state_dict (optimizer l) = osd) /\
  ((DATASET (TRAIN cfg) = "ucf24" \/ DATASET (TRAIN cfg) = "jhmdb21") ->
   EVALUATE (TRAIN cfg) = false ->
   (k + 1 <= END_EPOCH (TRAIN cfg))%Z ->
   head (trained_epochs (w_out (snd (main fs (start cfg))))) = Some (k + 1)%Z).
Proof.
  intros Hf Hk Hs Hsd Hosd. split.
  - intros l0 w0 <-. eexists _, _. split.
    + by apply (resume_loaded fs l0 w0 d k s sd osd).
    + simpl. rewrite state_dict_load, opt_state_dict_load. done.
  - intros Hds Hev Hle.
    assert (Hok : resumable fs cfg = true).
    { unfold resumable. rewrite Hf. simpl. by rewrite Hk, Hs, Hsd, Hosd. }
    destruct (main_training_run fs cfg Hds Hok Hev)
      as (l & cfg' & b & pre & l' & evs & _ & Hmain & [rest Hrr] & Hpre & _ & Hcyc).
    destruct (resume_result_begin _ _ _ _ _ Hrr) as (_ & _ & _ & Hload).
    destruct (Hload d Hf) as [Hk' _]. rewrite Hk in Hk'. injection Hk' as Hk'.
    destruct (cycles_epochs _ _ _ _ _ _ Hcyc) as (_ & Ht & _).
    destruct (setup_projections pre Hpre) as (_ & Pt & _).
    rewrite Hmain. simpl. unfold trained_epochs in *.
    rewrite omap_app, Pt, Ht. simpl.
    unfold py_range. rewrite seqZ_cons by lia. simpl. f_equal. lia.
Qed.

(** C3. In every run that gets past the set-up, the best score starts at 0
    when no file exists at the resume path and at the stored score when a
    checkpoint was loaded. The loop of the run is the loop over any initial
    part of its epoch range followed by the loop over the rest; with the
    procedures bound it completes any number of cycles, and after any number
    of completed cycles the best score is the running maximum ([Qmax] keeps its first argument on a tie)
    of the seed and the scores evaluated so far: it is not below the seed,
    not below any score seen, and is the seed or one of the scores. A further
    completed cycle with score s replaces it by s when s is strictly greater
    (and then writes the best slot) and otherwise (s not greater, a tie
    included) leaves it as it is, passes [is_best = false] to
    [save_checkpoint] and does not write the best slot; either way the best
    score does not decrease. *)
Theorem best_score_running_maximum (fs : gmap string File) (cfg : Config)
    (l : Locals) (env : option Bound) (w1 : World) :
  prologue fs (start cfg) = (Return (l, env), w1) ->
  (fs !! RESUME_PATH (TRAIN cfg) = None -> best_score l = 0) /\
  (forall d, fs !! RESUME_PATH (TRAIN cfg) = Some (Pickled d) ->
     ld_score d = Some (best_score l)) /\
  (forall es rest,
     py_range (BEGIN_EPOCH (TRAIN (w_cfg w1))) (END_EPOCH (TRAIN (w_cfg w1)) + 1)
       = (es ++ rest)%list ->
     training_loop env l w1 =
       match for_in es (epoch_cycle env) l w1 with
       | (Return l1, w2) => for_in rest (epoch_cycle env) l1 w2
       | (Raise e, w2) => (Raise e, w2)
       end) /\
  (forall b es, env = Some b ->
     exists l1 w2, for_in es (epoch_cycle env) l w1 = (Return l1, w2)) /\
  (forall es l1 w2,
     for_in es (epoch_cycle env) l w1 = (Return l1, w2) ->
     exists evs,
       w2 = after w1 evs /\
       length (scores_seen evs) = length es /\
       best_score l1 = fold_left Qmax (scores_seen evs) (best_score l) /\
       best_score l <= best_score l1 /\
       Forall (fun s => s <= best_score l1) (scores_seen evs) /\
       (best_score l1 = best_score l \/ best_score l1 ∈ scores_seen evs) /\
       forall e l2 w3,
         epoch_cycle env e l1 w2 = (Return l2, w3) ->
         exists s evs',
           w3 = after w2 evs' /\
           scores_seen evs' = [s] /\
           best_score l2 = (if Qgtb s (best_score l1) then s else best_score l1) /\
           (best_score l1 < s ->
              best_score l2 = s /\ snd <$> save_calls evs' = [true] /\
              ck_score <$> writes_to Best evs' = [s]) /\
           (s <= best_score l1 ->
              best_score l2 = best_score l1 /\ snd <$> save_calls evs' = [false] /\
              writes_to Best evs' = []) /\
           best_score l1 <= best_score l2).
Proof.
  intros Hpro.
  destruct (prologue_returned fs cfg l env w1 Hpro) as [rest Hrr].
  destruct (resume_result_begin _ _ _ _ _ Hrr) as (_ & _ & Hfresh & Hload).
  split; [by intros Hno; apply Hfresh|].
  split; [by intros d Hd; apply Hload|].
  split.
  { intros es more Hsplit. unfold training_loop. munfold. rewrite Hsplit.
    apply for_in_app. }
  split.
  { intros b es ->. destruct (for_in_bound b es l w1) as (l1 & evs & Hrun & _).
    eauto. }
  intros es l1 w2 Hrun.
  destruct (for_in_returned env es l w1 l1 w2 Hrun) as (evs & -> & Henv).
  assert (Hlen : length (scores_seen evs) = length es /\
                 best_score l1 = fold_left Qmax (scores_seen evs) (best_score l)).
  { destruct env as [b|].
    - by apply (cycles_best_score b (w_cfg w1)).
    - by destruct Henv as (-> & -> & ->). }
  destruct Hlen as [Hlen Hmax].
  exists evs. split; [done|]. split; [done|]. split; [done|].
  split; [rewrite Hmax; apply fold_Qmax_ge|].
  split.
  { apply Forall_forall. intros s Hs. rewrite Hmax. by apply fold_Qmax_upper. }
  split; [rewrite Hmax; apply fold_Qmax_attained|].
  intros e l2 w3 Hcycle.
  destruct (epoch_cycle_returned env e l1 _ l2 w3 Hcycle)
    as (b & lr & s & _ & Hstep & ->).
  destruct Hstep as (o1 & _ & _ & _ & Hbest).
  destruct (cycle_events_projections (w_cfg (after w1 evs)) e lr (checkpoint_of e l2 s)
              (best_score l1) (Qgtb s (best_score l1)))
    as (_ & _ & _ & Hsc & Hcalls & _ & Hwb & _).
  eexists s, _. split; [reflexivity|]. split; [done|]. split; [done|].
  rewrite Hcalls, Hwb, Hbest.
  split; [|split].
  - intros Hgt. apply Qgtb_true in Hgt. by rewrite Hgt.
  - intros Hle. apply Qgtb_false in Hle. by rewrite Hle.
  - apply update_ge.
Qed.

(** ** The configuration object along a run *)

Lemma resume_cfg (fs : gmap string File) (l : Locals) (w : World) :
  w_cfg (snd (resume fs l w)) =
  match fs !! RESUME_PATH (TRAIN (w_cfg w)) with
  | Some (Pickled d) =>
      match ld_epoch d with
      | Some k => set_BEGIN_EPOCH (k + 1) (w_cfg w)
      | None => w_cfg w
      end
  | _ => w_cfg w
  end.
Proof.
  destruct (fs !! RESUME_PATH (TRAIN (w_cfg w))) as [f|] eqn:Hf.
  - unfold resume, isfile, torch_load. munfold.
    rewrite Hf. rewrite bool_decide_eq_true_2 by eauto.
    simpl. destruct f as [|d]; [done|].
    by destruct d as [[k|] [s|] [sd|] [osd|]].
  - by rewrite resume_absent.
Qed.

Lemma select_dataset_kept : cfg_kept select_dataset.
Proof.
  intros w.
  destruct (dataset_cases (DATASET (TRAIN (w_cfg w)))) as [Hds|[Hds|(H1 & H2 & H3)]].
  - destruct (select_supported w Hds) as (b & evs & Hsel & _). by rewrite Hsel.
  - by rewrite select_ava.
  - by rewrite select_invalid.
Qed.

Lemma schedule_kept (env : option Bound) (l : Locals) : cfg_kept (schedule env l).
Proof.
  intros w. destruct (EVALUATE (TRAIN (w_cfg w))) eqn:Hev; destruct env as [b|].
  - by rewrite schedule_evaluate.
  - by rewrite schedule_evaluate_unbound.
  - destruct (schedule_train b l w Hev) as (l' & evs & Hsch & _). by rewrite Hsch.
  - destruct (Z.le_gt_cases (BEGIN_EPOCH (TRAIN (w_cfg w))) (END_EPOCH (TRAIN (w_cfg w))))
      as [Hle|Hgt].
    + destruct (schedule_train_unbound l w Hev Hle) as [lr Hsch]. by rewrite Hsch.
    + by rewrite schedule_train_unbound_empty.
Qed.

Lemma main_cfg (fs : gmap string File) (cfg : Config) :
  w_cfg (snd (main fs (start cfg))) =
  w_cfg (snd (resume fs (init_locals cfg) (after (start cfg) (init_events cfg)))).
Proof.
  rewrite main_unfold, prologue_unfold.
  destruct (resume fs (init_locals cfg) (after (start cfg) (init_events cfg)))
    as [[l|e] w]; [|done].
  pose proof (select_dataset_kept w) as Hsel.
  destruct (select_dataset w) as [[env|e] w']; simpl in *; [|done].
  by rewrite schedule_kept.
Qed.

(** C5, as amended. For every configuration whose dataset identifier is
    not ucf24, jhmdb21 or ava, [main] fails: with the "invalid dataset"
    assertion whenever the resume step does not fail first. It fails after
    the model and the optimizer have been constructed -- the effects of the
    run start with the model construction and are those of lines 26-46
    followed by effects of the resume step only -- and before any dataset,
    loader or loss construction, learning-rate adjustment, training call,
    evaluation call or checkpoint write. *)
Theorem invalid_dataset_fails_after_model_construction
    (fs : gmap string File) (cfg : Config) :
  DATASET (TRAIN cfg) <> "ucf24" -> DATASET (TRAIN cfg) <> "jhmdb21" ->
  DATASET (TRAIN cfg) <> "ava" ->
  exists e w',
    main fs (start cfg) = (Raise e, w') /\
    (resumable fs cfg = true -> e = AssertionError "invalid dataset") /\
    head (w_out w') = Some (EvCreateModel cfg) /\
    models_built (w_out w') = [cfg] /\
    EvCreateOptimizer (LEARNING_RATE (TRAIN cfg)) (WEIGHT_DECAY (SOLVER cfg)) ∈ w_out w' /\
    (exists rest, w_out w' = (init_events cfg ++ rest)%list /\
                  Forall (fun ev => resume_event ev = true) rest) /\
    adjusted_epochs (w_out w') = [] /\ trained_epochs (w_out w') = [] /\
    tested_epochs (w_out w') = [] /\ save_calls (w_out w') = [] /\
    writes_to Latest (w_out w') = [] /\ writes_to Best (w_out w') = [].
Proof.
  intros H1 H2 H3.
  destruct (prologue_invalid fs cfg H1 H2 H3) as (e & v & rest & Hpro & Hrest & He).
  eexists e, _. split; [by rewrite main_unfold, Hpro|].
  cbn [w_out]. split; [done|].
  destruct (init_events_setup cfg) as (Hi1 & Hi2 & Hi3).
  destruct (resume_event_setup rest Hrest) as [Hr1 Hr2].
  split.
  { unfold init_events in *. by destruct cuda_is_available. }
  split; [by rewrite models_built_app, Hi2, Hr2|].
  split.
  { apply elem_of_app. left. unfold init_events.
    rewrite !elem_of_app. right. right. by left. }
  split; [eauto|].
  assert (Hall : Forall (fun ev => setup_event ev = true) (init_events cfg ++ rest))
    by by apply Forall_app_2.
  destruct (setup_projections _ Hall) as (P1 & P2 & P3 & _ & P5 & P6 & P7).
  done.
Qed.

(** C7. The resume step raises exactly when the resume path names a file
    that exists and is not a well-formed checkpoint (unreadable, or lacking
    one of the four keys). When the path names no file the step returns the
    local variables and the store as they were, with no effect at all (not
    even a log line): the whole run is the run on an empty file system, the
    begin epoch is the configured one and the best score is 0. *)
Theorem resume_fatal_iff_malformed (fs : gmap string File) :
  (forall (l : Locals) (w : World),
     (exists e w', resume fs l w = (Raise e, w')) <->
     (exists f, fs !! RESUME_PATH (TRAIN (w_cfg w)) = Some f /\ well_formed f = false)) /\
  (forall (l : Locals) (w : World),
     fs !! RESUME_PATH (TRAIN (w_cfg w)) = None -> resume fs l w = (Return l, w)) /\
  (forall cfg : Config,
     fs !! RESUME_PATH (TRAIN cfg) = None ->
     main fs (start cfg) = main ∅ (start cfg) /\
     forall l env w1,
       prologue fs (start cfg) = (Return (l, env), w1) ->
       w_cfg w1 = cfg /\ BEGIN_EPOCH (TRAIN (w_cfg w1)) = BEGIN_EPOCH (TRAIN cfg) /\
       best_score l = 0).
Proof.
  split; [|split].
  - intros l w. split.
    + intros (e & w' & Hrun).
      destruct (fs !! RESUME_PATH (TRAIN (w_cfg w))) as [f|] eqn:Hf.
      * exists f. split; [done|].
        destruct (well_formed f) eqn:Hwf; [|done].
        destruct f as [|d]; [done|].
        destruct (well_formed_keys d Hwf) as (k & s & sd & osd & Hk & Hs & Hsd & Hosd).
        rewrite (resume_loaded fs l w d k s sd osd) in Hrun by done. discriminate.
      * rewrite resume_absent in Hrun by done. discriminate.
    + intros (f & Hf & Hwf). by apply (resume_malformed fs l w f).
  - intros l w. apply resume_absent.
  - intros cfg Hno. split.
    + rewrite !main_unfold, !prologue_unfold.
      rewrite !resume_absent; [done|apply lookup_empty|done].
    + intros l env w1 Hpro.
      destruct (prologue_returned fs cfg l env w1 Hpro) as [rest Hrr].
      destruct (resume_result_begin _ _ _ _ _ Hrr) as (_ & _ & Hfresh & _).
      destruct (Hfresh Hno) as [Hb Hs].
      split; [|done]. destruct Hrr; [done|congruence].
Qed.

(** C8. A cycle of the loop for epoch e completes exactly when the
    procedures are bound. It then ends with a checkpoint dictionary holding
    e, the score the evaluation call of this cycle returned, and the state
    dictionaries of the model and of the optimizer as the training call of
    this cycle left them; [save_checkpoint] is called once, with that
    dictionary and [is_best = (score > best score before the cycle)]; the
    dictionary is written to the latest slot unconditionally and to the best
    slot if and only if [is_best]. *)
Theorem cycle_saves_checkpoint (e : Z) (l : Locals) (w : World) :
  (forall b : Bound,
     exists l' lr s,
       let st := checkpoint_of e l' s in
       let is_best := Qgtb s (best_score l) in
       let evs := cycle_events (w_cfg w) e lr st (best_score l) is_best in
       epoch_cycle (Some b) e l w = (Return l', after w evs) /\
       cycle_step b (w_cfg w) e l l' lr s /\
       ck_epoch st = e /\ ck_score st = s /\ scores_seen evs = [s] /\
       ck_state_dict st = state_dict (model l') /\
       ck_optimizer st = opt_state_dict (optimizer l') /\
       save_calls evs = [(st, is_best)] /\
       writes_to Latest evs = [st] /\
       writes_to Best evs = (if is_best then [st] else []) /\
       (st ∈ writes_to Best evs <-> is_best = true)) /\
  (exists ex w',
     epoch_cycle None e l w = (Raise ex, w') /\
     save_calls (w_out w') = save_calls (w_out w) /\
     writes_to Latest (w_out w') = writes_to Latest (w_out w) /\
     writes_to Best (w_out w') = writes_to Best (w_out w)).
Proof.
  split.
  - intros b. destruct (epoch_cycle_bound b e l w) as (l' & lr & s & Hstep & Hrun).
    exists l', lr, s. cbv zeta.
    destruct (cycle_events_projections (w_cfg w) e lr (checkpoint_of e l' s)
                (best_score l) (Qgtb s (best_score l)))
      as (_ & _ & _ & Hsc & Hcalls & Hwl & Hwb & _).
    rewrite Hwb. repeat split; try done.
    + destruct (Qgtb s (best_score l)); [done|]. by intros ?%elem_of_nil.
    + intros ->. by left.
  - destruct (epoch_cycle_unbound e l w) as [lr Hrun].
    eexists _, _. split; [exact Hrun|].
    unfold after, save_calls, writes_to. simpl. rewrite !omap_app. simpl.
    by rewrite !app_nil_r.
Qed.

(** C9, as amended. Along every run of [main], whatever its outcome, the
    configuration object keeps every field it was constructed with except the
    begin epoch: a resume step that reads a stored epoch k from the file at
    the resume path overwrites the begin epoch with k + 1; when the path
    names no file, an unreadable file or a dictionary without an epoch, the
    object ends the run exactly as constructed. *)
Theorem configuration_changes_only_begin_epoch (fs : gmap string File) (cfg : Config) :
  let cfg' := w_cfg (snd (main fs (start cfg))) in
  cfg' = set_BEGIN_EPOCH (BEGIN_EPOCH (TRAIN cfg')) cfg /\
  (fs !! RESUME_PATH (TRAIN cfg) = None -> cfg' = cfg) /\
  (fs !! RESUME_PATH (TRAIN cfg) = Some Unreadable -> cfg' = cfg) /\
  (forall d, fs !! RESUME_PATH (TRAIN cfg) = Some (Pickled d) ->
     ld_epoch d = None -> cfg' = cfg) /\
  (forall d k, fs !! RESUME_PATH (TRAIN cfg) = Some (Pickled d) ->
     ld_epoch d = Some k -> cfg' = set_BEGIN_EPOCH (k + 1) cfg).
Proof.
  cbv zeta. rewrite main_cfg, resume_cfg. simpl.
  assert (Heta : set_BEGIN_EPOCH (BEGIN_EPOCH (TRAIN cfg)) cfg = cfg)
    by (by destruct cfg as [[] ? ? ? ? ?]).
  split.
  { destruct (fs !! RESUME_PATH (TRAIN cfg)) as [[|d]|]; try done.
    by destruct (ld_epoch d). }
  split; [by intros ->|]. split; [by intros ->|].
  split; [by intros d -> ->|by intros d k -> ->].
Qed.

(** ** Runs in which no score exceeds the best score *)

Lemma cycles_never_best b cfg es l l' evs :
  cycles b cfg es l l' evs ->
  Forall (fun s => s <= best_score l) (scores_seen evs) ->
  best_score l' = best_score l /\
  writes_to Best evs = [] /\
  Forall (fun c => snd c = false) (save_calls evs).
Proof.
  induction 1 as [|e es l l1 l2 lr s evs Hstep Hcyc IH]; intros Hall; [done|].
  destruct (cycle_events_projections cfg e lr (checkpoint_of e l1 s) (best_score l)
              (Qgtb s (best_score l))) as (_ & _ & _ & Hsc & Hcalls & _ & Hwb & _).
  unfold scores_seen, writes_to, save_calls in *.
  rewrite omap_app, Hsc in Hall. simpl in Hall.
  apply Forall_cons in Hall as [Hs Hall].
  apply Qgtb_false in Hs.
  destruct Hstep as (o1 & _ & _ & _ & Hbest). rewrite Hs in Hbest.
  rewrite Hbest in IH. destruct (IH Hall) as (IH1 & IH2 & IH3).
  rewrite !omap_app, Hcalls, Hwb, IH2, Hs. simpl.
  split; [congruence|]. split; [done|]. by constructor.
Qed.

(** C10. In every training run (evaluate-only flag unset) that starts fresh
    (no file at the resume path) and in which no evaluation returns a score
    above 0, the best slot is never written and every [save_checkpoint] call
    has [is_best = false], while the latest slot is written exactly once for
    each epoch evaluated, in order, with that epoch's number in the record;
    on ucf24 and jhmdb21 the run returns normally and these are the epochs
    from the begin epoch through the end epoch inclusive. *)
Theorem nonpositive_scores_never_write_best (fs : gmap string File) (cfg : Config) :
  fs !! RESUME_PATH (TRAIN cfg) = None ->
  EVALUATE (TRAIN cfg) = false ->
  Forall (fun s => s <= 0) (scores_seen (w_out (snd (main fs (start cfg))))) ->
  let out := w_out (snd (main fs (start cfg))) in
  writes_to Best out = [] /\
  Forall (fun c => snd c = false) (save_calls out) /\
  ck_epoch <$> writes_to Latest out = tested_epochs out /\
  length (writes_to Latest out) = length (tested_epochs out) /\
  (DATASET (TRAIN cfg) = "ucf24" \/ DATASET (TRAIN cfg) = "jhmdb21" ->
   fst (main fs (start cfg)) = Return tt /\
   tested_epochs out =
     py_range (BEGIN_EPOCH (TRAIN cfg)) (END_EPOCH (TRAIN cfg) + 1)).
Proof.
  intros Hno Hev Hscores. cbv zeta.
  assert (Hok : resumable fs cfg = true) by (unfold resumable; by rewrite Hno).
  assert (Hquiet : forall pre extra e lr,
            Forall (fun ev => setup_event ev = true) pre ->
            extra = [] \/ extra = [EvAdjustLR e; EvLogging (MsgTraining e lr)] ->
            writes_to Best (pre ++ extra) = [] /\
            save_calls (pre ++ extra) = [] /\
            writes_to Latest (pre ++ extra) = [] /\
            tested_epochs (pre ++ extra) = []).
  { intros pre extra e lr Hpre Hextra.
    destruct (setup_projections pre Hpre) as (_ & _ & P3 & _ & P5 & P6 & P7).
    unfold writes_to, save_calls, tested_epochs in *.
    rewrite !omap_app, P3, P5, P6, P7. by destruct Hextra as [->| ->]. }
  destruct (dataset_cases (DATASET (TRAIN cfg))) as [Hds|[Hds|(H1 & H2 & H3)]].
  - destruct (main_training_run fs cfg Hds Hok Hev)
      as (l & cfg' & b & pre & l' & evs & _ & Hmain & [rest Hrr] & Hpre & _ & Hcyc).
    destruct (resume_result_begin _ _ _ _ _ Hrr) as (_ & _ & Hfresh & _).
    destruct (Hfresh Hno) as [Hb Hseed].
    rewrite Hmain in *. cbn [snd fst w_out] in *.
    destruct (setup_projections pre Hpre) as (_ & _ & P3 & P4 & P5 & P6 & P7).
    destruct (cycles_epochs _ _ _ _ _ _ Hcyc) as (_ & _ & Hte).
    destruct (cycles_saves _ _ _ _ _ _ Hcyc) as (Hep & _).
    destruct (cycles_never_best _ _ _ _ _ _ Hcyc) as (_ & Hwb & Hflags).
    { unfold scores_seen in *. rewrite omap_app, P4 in Hscores.
      simpl in Hscores. by rewrite Hseed. }
    unfold writes_to, save_calls, tested_epochs in *.
    rewrite !omap_app, P3, P5, P6, P7, Hwb. cbn [app].
    split; [done|]. split; [done|]. split; [by rewrite Hep, Hte|].
    split; [by rewrite Hte, <- Hep, length_fmap|].
    intros _. split; [done|]. by rewrite Hte, Hb.
  - destruct (prologue_ava fs cfg Hds Hok) as (l & cfg' & pre & Hpro & [rest Hrr] & Hpre & _).
    destruct (resume_result_begin _ _ _ _ _ Hrr) as (_ & Heval & _).
    assert (Hds' : ~ (DATASET (TRAIN cfg) = "ucf24" \/ DATASET (TRAIN cfg) = "jhmdb21"))
      by (rewrite Hds; intros [?|?]; discriminate).
    rewrite main_unfold, Hpro.
    destruct (Z.le_gt_cases (BEGIN_EPOCH (TRAIN cfg')) (END_EPOCH (TRAIN cfg')))
      as [Hle|Hgt].
    + destruct (schedule_train_unbound l {| w_cfg := cfg'; w_out := pre |})
        as [lr Hsch]; [simpl; congruence|done|].
      rewrite Hsch. cbn [snd fst w_out after w_cfg].
      destruct (Hquiet pre _ (BEGIN_EPOCH (TRAIN cfg')) lr Hpre (or_intror eq_refl))
        as (Q1 & Q2 & Q3 & Q4).
      rewrite Q1, Q2, Q3, Q4. by repeat split.
    + rewrite schedule_train_unbound_empty by (simpl; first [congruence|lia]).
      cbn [snd fst w_out].
      destruct (Hquiet pre [] 0%Z 0 Hpre (or_introl eq_refl)) as (Q1 & Q2 & Q3 & Q4).
      rewrite app_nil_r in *. rewrite Q1, Q2, Q3, Q4. by repeat split.
  - destruct (prologue_invalid fs cfg H1 H2 H3) as (e & v & rest & Hpro & Hrest & _).
    rewrite main_unfold, Hpro. cbn [snd fst w_out].
    destruct (init_events_setup cfg) as (Hi1 & _).
    destruct (resume_event_setup rest Hrest) as [Hr1 _].
    destruct (Hquiet (init_events cfg ++ rest)%list [] 0%Z 0) as (Q1 & Q2 & Q3 & Q4);
      [by apply Forall_app_2|by left|].
    rewrite app_nil_r in *. rewrite Q1, Q2, Q3, Q4.
    split; [done|]. split; [constructor|]. split; [done|]. split; [done|].
    by intros [?|?].
Qed.

End Properties.


(** * The properties on concrete runs *)

Lemma training_cycles_cover_epoch_range_witness :
  exists w',
    @main demo demo_fs (start (config "ucf24" 1 3 false "ckpt.pth")) = (Return tt, w') /\
    trained_epochs (w_out w') = py_range 2 (3 + 1).
Proof.
  destruct (@training_cycles_cover_epoch_range demo demo_fs
              (config "ucf24" 1 3 false "ckpt.pth"))
    as (w' & Hmain & _ & Hload & _ & Ht & _).
  - left. reflexivity.
  - reflexivity.
  - reflexivity.
  - exists w'. split; [exact Hmain|].
    cbv zeta in Hload, Ht.
    rewrite (Hload _ 1%Z eq_refl eq_refl) in Ht. exact Ht.
Defined.

(** C1 as stated fails: with the configured range [1, 3], the flag unset and
    a checkpoint of epoch 1 at the resume path, the loop runs the two cycles
    of epochs 2 and 3, not three cycles from epoch 1; and with an
    unrecognised dataset it runs none. *)
Lemma configured_range_not_covered :
  let c := config "ucf24" 1 3 false "ckpt.pth" in
  let out := w_out (snd (@main demo demo_fs (start c))) in
  let c' := config "kinetics" 1 3 false "" in
  let out' := w_out (snd (@main demo ∅ (start c'))) in
  (BEGIN_EPOCH (TRAIN c) <= END_EPOCH (TRAIN c))%Z /\
  EVALUATE (TRAIN c) = false /\
  trained_epochs out = [2; 3]%Z /\
  Z.of_nat (length (trained_epochs out))
    <> (END_EPOCH (TRAIN c) - BEGIN_EPOCH (TRAIN c) + 1)%Z /\
  fst (@main demo ∅ (start c')) = Raise (AssertionError "invalid dataset") /\
  trained_epochs out' = [].
Proof. vm_compute. repeat split; discriminate. Qed.

Lemma resume_restores_checkpoint_witness :
  exists l w,
    @resume demo demo_fs (@init_locals demo (config "ucf24" 1 3 false "ckpt.pth"))
      (start (config "ucf24" 1 3 false "ckpt.pth")) = (Return l, w) /\
    BEGIN_EPOCH (TRAIN (w_cfg w)) = 2%Z /\
    best_score l = Qmake (-1) 2.
Proof.
  destruct (@resume_restores_checkpoint demo demo_fs
              (config "ucf24" 1 3 false "ckpt.pth")
              (@Build_LoadedDict demo (Some 1%Z) (Some (Qmake (-1) 2))
                                 (Some 7%Z) (Some 9%Z))
              1%Z (Qmake (-1) 2) 7%Z 9%Z)
    as [Hres _]; try reflexivity.
  destruct (Hres (@init_locals demo (config "ucf24" 1 3 false "ckpt.pth"))
                 (start (config "ucf24" 1 3 false "ckpt.pth")) eq_refl)
    as (l & w & Hrun & _ & Hb & Hs & _).
  exists l, w. split; [exact Hrun|]. split; [exact Hb|exact Hs].
Defined.

(** C2 as stated fails: a well-formed checkpoint with score -1/2 seeds the
    best score with -1/2, which is lower than the 0 of a fresh run. *)
Lemma resumed_seed_below_zero :
  exists l w,
    @resume demo demo_fs (@init_locals demo (config "ucf24" 1 3 false "ckpt.pth"))
      (start (config "ucf24" 1 3 false "ckpt.pth")) = (Return l, w) /\
    best_score l = Qmake (-1) 2 /\
    ~ (0 <= best_score l)%Q.
Proof.
  eexists _, _. split; [vm_compute; reflexivity|]. split; [reflexivity|].
  vm_compute. intros H. apply H. reflexivity.
Qed.

Lemma best_score_running_maximum_witness :
  exists l env w1,
    @prologue demo ∅ (start (config "ucf24" 1 3 false "")) = (Return (l, env), w1) /\
    best_score l = 0%Q.
Proof.
  destruct (@prologue demo ∅ (start (config "ucf24" 1 3 false "")))
    as [[[l env]|e] w1] eqn:Hpro.
  - exists l, env, w1. split; [reflexivity|].
    exact (proj1 (@best_score_running_maximum demo ∅ _ l env w1 Hpro) eq_refl).
  - vm_compute in Hpro. discriminate Hpro.
Defined.

Lemma evaluate_only_single_evaluation_witness :
  exists w',
    @main demo ∅ (start (config "jhmdb21" 5 2 true "")) = (Return tt, w') /\
    tested_epochs (w_out w') = [0%Z] /\ trained_epochs (w_out w') = [].
Proof.
  destruct (@evaluate_only_single_evaluation demo ∅ (config "jhmdb21" 5 2 true ""))
    as (w' & Hmain & Hte & _ & Htr & _).
  - right. reflexivity.
  - reflexivity.
  - reflexivity.
  - exists w'. split; [exact Hmain|]. split; [exact Hte|exact Htr].
Defined.

(** C4 as stated fails: with the evaluate-only flag set and an unrecognised
    dataset identifier the run raises the assertion error of line 66 and
    makes no evaluation call. *)
Lemma evaluate_only_without_evaluation :
  let c := config "kinetics" 1 3 true "" in
  EVALUATE (TRAIN c) = true /\
  fst (@main demo ∅ (start c)) = Raise (AssertionError "invalid dataset") /\
  tested_epochs (w_out (snd (@main demo ∅ (start c)))) = [].
Proof. vm_compute. repeat split. Qed.

Lemma invalid_dataset_fails_after_model_construction_witness :
  exists e w',
    @main demo ∅ (start (config "unsupported_value" 1 3 false "")) = (Raise e, w') /\
    models_built (w_out w') = [config "unsupported_value" 1 3 false ""].
Proof.
  destruct (@invalid_dataset_fails_after_model_construction demo ∅
              (config "unsupported_value" 1 3 false ""))
    as (e & w' & Hmain & _ & _ & Hmb & _).
  - discriminate.
  - discriminate.
  - discriminate.
  - exists e, w'. split; [exact Hmain|exact Hmb].
Defined.

(** C5 as stated fails: with dataset ["unsupported_value"] the run does fail
    with the assertion error, but its first effect is the construction of
    the model, and the optimizer is constructed too. *)
Lemma model_constructed_before_dataset_check :
  let c := config "unsupported_value" 1 3 false "" in
  let r := @main demo ∅ (start c) in
  fst r = Raise (AssertionError "invalid dataset") /\
  head (w_out (snd r)) = Some (EvCreateModel c) /\
  models_built (w_out (snd r)) = [c] /\
  last (w_out (snd r)) = Some (EvCreateOptimizer (Qmake 1 10000) (Qmake 5 10000)).
Proof. vm_compute. repeat split. Qed.

(** C6 on the code. With dataset ["ava"] the assertion of line 66 passes and
    no procedure is bound. With the flag unset and an empty epoch range
    (begin 5, end 4; or begin 1, end 3 resumed from the checkpoint of epoch
    3) [main] returns normally without any training, evaluation or save:
    nothing is reported. Otherwise it stops on the unbound name [test]
    (evaluate-only) or [train] (first epoch), not on a dataset diagnostic. *)
Theorem ava_runs_without_dataset_diagnostic :
  let quiet := config "ava" 5 4 false "" in
  let resumed := config "ava" 1 3 false "ckpt.pth" in
  @main demo ∅ (start quiet) =
    (Return tt,
     {| w_cfg := quiet;
        w_out := (@init_events demo quiet ++ [EvPrint (MsgDataset "ava")])%list |}) /\
  fst (@main demo finished_fs (start resumed)) = Return tt /\
  tested_epochs (w_out (snd (@main demo finished_fs (start resumed)))) = [] /\
  save_calls (w_out (snd (@main demo finished_fs (start resumed)))) = [] /\
  fst (@main demo ∅ (start (config "ava" 1 3 true "")))
    = Raise (UnboundLocalError "test") /\
  fst (@main demo ∅ (start (config "ava" 1 3 false "")))
    = Raise (UnboundLocalError "train").
Proof. vm_compute. repeat split. Qed.

(** C9 as stated fails: resuming from the checkpoint of epoch 1 leaves the
    configuration object with begin epoch 2 instead of the configured 1. *)
Lemma resume_mutates_configuration :
  let c := config "ucf24" 1 3 false "ckpt.pth" in
  let c' := w_cfg (snd (@main demo demo_fs (start c))) in
  BEGIN_EPOCH (TRAIN c) = 1%Z /\ BEGIN_EPOCH (TRAIN c') = 2%Z /\ c' <> c.
Proof. vm_compute. repeat split. discriminate. Qed.

Lemma nonpositive_scores_never_write_best_witness :
  let out := w_out (snd (@main flat ∅ (start (config "ucf24" 1 3 false "")))) in
  writes_to Best out = [] /\
  ck_epoch <$> writes_to Latest out = py_range 1 (3 + 1).
Proof.
  destruct (@nonpositive_scores_never_write_best flat ∅ (config "ucf24" 1 3 false ""))
    as (Hb & _ & Hl & _ & Hrange).
  - reflexivity.
  - reflexivity.
  - vm_compute. repeat constructor; discriminate.
  - cbv zeta in *. split; [exact Hb|].
    rewrite Hl. exact (proj2 (Hrange (or_introl eq_refl))).
Defined.

(** * Further properties of [main] and of the script around it *)

From stdpp Require Import sorting.

Section MoreProperties.
Context `{K : Collaborators}.

Local Open Scope Q_scope.

Ltac mred :=
  unfold mbind, M_bind, mret, M_ret, bind, ret, raise, emit, get_cfg,
    assign_BEGIN_EPOCH, logging, print, assert_, subscript, local in *.

(** ** What a run reads *)



(** ** Errors of the resume step *)

(** X2. When a file exists at the resume path and is not a well-formed
    checkpoint, the resume step raises the error of the first thing that is
    wrong, in the order of lines 53-57: the unpickling error of an unreadable
    file, else [KeyError] for the first missing key among epoch, score,
    state_dict, optimizer. The configuration is untouched when the file is
    unreadable or has no epoch, but when the epoch k is there the begin epoch
    has already been overwritten with k + 1 when the error is raised; and
    when only the optimizer state is missing the model has already loaded
    the stored state. *)
Theorem resume_error_order (fs : gmap string File) (l : Locals) (w : World) (f : File) :
  fs !! RESUME_PATH (TRAIN (w_cfg w)) = Some f ->
  let r := resume fs l w in
  (f = Unreadable ->
     fst r = Raise (UnpicklingError (RESUME_PATH (TRAIN (w_cfg w)))) /\
     w_cfg (snd r) = w_cfg w) /\
  (forall d, f = Pickled d ->
     (ld_epoch d = None ->
        fst r = Raise (KeyError "epoch") /\ w_cfg (snd r) = w_cfg w) /\
     (forall k, ld_epoch d = Some k ->
        w_cfg (snd r) = set_BEGIN_EPOCH (k + 1) (w_cfg w) /\
        (ld_score d = None -> fst r = Raise (KeyError "score")) /\
        (forall s, ld_score d = Some s ->
           (ld_state_dict d = None -> fst r = Raise (KeyError "state_dict")) /\
           (forall sd, ld_state_dict d = Some sd -> ld_optimizer d = None ->
              fst r = Raise (KeyError "optimizer") /\
              EvLoadModelState sd ∈ w_out (snd r))))).
Proof.
  intros Hf. cbv zeta. unfold resume, isfile, torch_load. mred.
  rewrite Hf. rewrite bool_decide_eq_true_2 by eauto. simpl.
  split.
  - by intros ->.
  - intros d ->. simpl. split.
    + by intros ->.
    + intros k ->. simpl. split; [by destruct (ld_score d), (ld_state_dict d), (ld_optimizer d)|].
      split; [by intros ->|].
      intros s ->. simpl. split; [by intros ->|].
      intros sd -> ->. simpl. split; [done|].
      rewrite !elem_of_app. right. by left.
Qed.

(** ** Effects of the stages *)

Lemma emits_ret {A} P (a : A) : emits P (ret a).
Proof. intros w. exists []. by rewrite app_nil_r. Qed.

Lemma emits_raise {A} P e : emits P (@raise K A e).
Proof. intros w. exists []. by rewrite app_nil_r. Qed.

Lemma emits_get_cfg P : emits P get_cfg.
Proof. intros w. exists []. by rewrite app_nil_r. Qed.

Lemma emits_emit (P : event -> bool) ev : P ev = true -> emits P (emit ev).
Proof. intros HP w. exists [ev]. split; [done|by constructor]. Qed.

Lemma emits_bind {A B} P (m : M A) (k : A -> M B) :
  emits P m -> (forall a, emits P (k a)) -> emits P (bind m k).
Proof.
  intros Hm Hk w. unfold bind.
  destruct (Hm w) as (evs1 & Hout1 & HP1).
  destruct (m w) as [[a|e] w1]; simpl in *.
  - destruct (Hk a w1) as (evs2 & Hout2 & HP2).
    exists (evs1 ++ evs2)%list. rewrite Hout2, Hout1, app_assoc.
    split; [done|by apply Forall_app_2].
  - by exists evs1.
Qed.

Lemma emits_for_in {A S} P (xs : list A) (body : A -> S -> M S) (s : S) :
  (forall x s, emits P (body x s)) -> emits P (for_in xs body s).
Proof.
  intros Hbody. revert s. induction xs as [|x xs IH]; intros s; simpl.
  - apply emits_ret.
  - unfold mbind, M_bind. apply emits_bind; [apply Hbody|apply IH].
Qed.

Ltac emits_tac :=
  unfold mbind, M_bind, mret, M_ret, logging, print, assert_, local;
  repeat match goal with
         | |- emits _ (bind _ _) => apply emits_bind; [|intros ?]
         | |- emits _ (ret _) => apply emits_ret
         | |- emits _ (raise _) => apply emits_raise
         | |- emits _ (emit _) => apply emits_emit; reflexivity
         | |- emits _ get_cfg => apply emits_get_cfg
         | |- emits _ (if ?b then _ else _) => destruct b
         | |- emits _ (let '(_, _) := ?x in _) => destruct x
         | |- emits _ (match ?x with _ => _ end) => destruct x
         end.

Lemma select_dataset_emits : emits select_event select_dataset.
Proof. unfold select_dataset. emits_tac. Qed.

Lemma epoch_cycle_emits env e l : emits schedule_event (epoch_cycle env e l).
Proof. unfold epoch_cycle, save_checkpoint. emits_tac. Qed.

Lemma schedule_emits env l : emits schedule_event (schedule env l).
Proof.
  unfold schedule, training_loop. emits_tac.
  apply emits_for_in. intros. apply epoch_cycle_emits.
Qed.


Lemma omap_Forall_None {A} (P : event -> bool) (f : event -> option A) (evs : list event) :
  (forall ev, P ev = true -> f ev = None) ->
  Forall (fun ev => P ev = true) evs -> omap f evs = [].
Proof.
  intros Hf. induction 1 as [|ev evs Hev _ IH]; [done|].
  simpl. rewrite (Hf ev Hev). exact IH.
Qed.

Lemma resume_torch_loads (fs : gmap string File) (l : Locals) (w : World) :
  torch_loads (w_out (snd (resume fs l w))) =
  (torch_loads (w_out w) ++
   if isfile fs (RESUME_PATH (TRAIN (w_cfg w)))
   then [RESUME_PATH (TRAIN (w_cfg w))] else [])%list.
Proof.
  unfold torch_loads.
  destruct (fs !! RESUME_PATH (TRAIN (w_cfg w))) as [f|] eqn:Hf.
  - unfold resume, isfile, torch_load. mred.
    rewrite Hf. rewrite bool_decide_eq_true_2 by eauto. simpl.
    destruct f as [|d]; simpl.
    { rewrite !omap_app. simpl. by rewrite !app_nil_r. }
    destruct d as [[k|] [s|] [sd|] [osd|]]; simpl;
      rewrite !omap_app; simpl; by rewrite ?app_nil_r.
  - rewrite resume_absent by done. unfold isfile. rewrite Hf.
    rewrite bool_decide_eq_false_2 by (by intros [? ?]). by rewrite app_nil_r.
Qed.

Lemma later_event_projections (evs : list event) :
  Forall (fun ev => later_event ev = true) evs ->
  models_built evs = [] /\ manual_seeds evs = [] /\ optimizers_built evs = [].
Proof.
  intros Hall. unfold models_built, manual_seeds, optimizers_built.
  repeat split; apply (omap_Forall_None later_event); try done; by intros [].
Qed.

(** X3. Whatever the configuration, the file system and the outcome, the
    effects of a run are those of lines 26-46 (model, seed, optimizer, in
    that order), then effects of the resume step, then effects of the
    dataset selection, then effects of the schedule: the stages never
    interleave. So every run constructs the model once, from the
    configuration as given and before the seed is set, sets the seed 42
    once, constructs the optimizer once with the configured learning rate
    and weight decay, and calls [torch.load] once on the resume path when a
    file is there and never otherwise. *)
Theorem run_stages_in_order (fs : gmap string File) (cfg : Config) :
  let out := w_out (snd (main fs (start cfg))) in
  (exists r s c,
     out = (init_events cfg ++ r ++ s ++ c)%list /\
     Forall (fun ev => resume_event ev = true) r /\
     Forall (fun ev => select_event ev = true) s /\
     Forall (fun ev => schedule_event ev = true) c) /\
  models_built out = [cfg] /\
  manual_seeds out = [42%Z] /\
  optimizers_built out = [(LEARNING_RATE (TRAIN cfg), WEIGHT_DECAY (SOLVER cfg))] /\
  torch_loads out =
    if isfile fs (RESUME_PATH (TRAIN cfg)) then [RESUME_PATH (TRAIN cfg)] else [].
Proof.
  cbv zeta.
  assert (Hstages : exists r s c,
    w_out (snd (main fs (start cfg))) = (init_events cfg ++ r ++ s ++ c)%list /\
    Forall (fun ev => resume_event ev = true) r /\
    Forall (fun ev => select_event ev = true) s /\
    Forall (fun ev => schedule_event ev = true) c /\
    w_out (snd (resume fs (init_locals cfg) (after (start cfg) (init_events cfg))))
      = (init_events cfg ++ r)%list).
  { rewrite main_unfold, prologue_unfold.
    remember (init_events cfg) as ie eqn:Hie.
    destruct (resume_effects fs (init_locals cfg) (after (start cfg) ie))
      as (r & v & Hr & Hkind & _).
    simpl in Hr.
    destruct (resume fs (init_locals cfg) (after (start cfg) ie))
      as [[l|e] w1]; simpl in Hr |- *.
    - destruct (select_dataset_emits w1) as (s & Hs & Hskind).
      destruct (select_dataset w1) as [[env|e] w2]; simpl in Hs |- *.
      + destruct (schedule_emits env l w2) as (c & Hc & Hckind).
        exists r, s, c. rewrite Hc, Hs, Hr, <- !app_assoc. done.
      + exists r, s, []. rewrite Hs, Hr, <- !app_assoc, app_nil_r. done.
    - exists r, [], []. rewrite Hr, !app_nil_r. done. }
  destruct Hstages as (r & s & c & Hout & Hr & Hs & Hc & Hres).
  split; [eauto 10|].
  pose proof (resume_torch_loads fs (init_locals cfg) (after (start cfg) (init_events cfg)))
    as Hloads.
  rewrite Hres in Hloads. cbn [after start w_out w_cfg app] in Hloads.
  assert (Hi0 : torch_loads (init_events cfg) = []).
  { unfold init_events. by destruct cuda_is_available. }
  rewrite Hi0 in Hloads. cbn [app] in Hloads.
  assert (Hlater : Forall (fun ev => later_event ev = true) (r ++ s ++ c)).
  { repeat apply Forall_app_2; eapply Forall_impl; try eassumption;
      intros ev Hev; destruct ev; try done;
      match goal with m : message |- _ => by destruct m end. }
  assert (Hs0 : torch_loads s = []).
  { apply (omap_Forall_None select_event); [|done].
    intros ev Hev; destruct ev; try done. }
  assert (Hc0 : torch_loads c = []).
  { apply (omap_Forall_None schedule_event); [|done].
    intros ev Hev; destruct ev; try done. }
  destruct (later_event_projections _ Hlater) as (L1 & L2 & L3).
  rewrite Hout.
  split; [|split; [|split]].
  - unfold models_built in *. rewrite omap_app, L1.
    unfold init_events. by destruct cuda_is_available.
  - unfold manual_seeds in *. rewrite omap_app, L2.
    unfold init_events. by destruct cuda_is_available.
  - unfold optimizers_built in *. rewrite omap_app, L3.
    unfold init_events. by destruct cuda_is_available.
  - rewrite app_assoc. unfold torch_loads in *.
    rewrite omap_app, Hloads, omap_app, Hs0, Hc0, !app_nil_r. done.
Qed.


(** ** The evaluate-only mode *)

Lemma select_dataset_bound (w : World) :
  DATASET (TRAIN (w_cfg w)) = "ucf24" \/ DATASET (TRAIN (w_cfg w)) = "jhmdb21" ->
  exists evs,
    select_dataset w = (Return (Some (bound_of (w_cfg w))), after w evs) /\
    Forall (fun ev => setup_event ev = true) evs.
Proof.
  intros [Hds|Hds]; unfold select_dataset, bound_of; mred; rewrite Hds; simpl;
    eexists; (split; [unfold after; rewrite <- !app_assoc; reflexivity|]);
    repeat constructor.
Qed.

Lemma evaluate_run (fs : gmap string File) (cfg : Config) l cfg' rest :
  DATASET (TRAIN cfg) = "ucf24" \/ DATASET (TRAIN cfg) = "jhmdb21" ->
  EVALUATE (TRAIN cfg) = true ->
  resume fs (init_locals cfg) (after (start cfg) (init_events cfg)) =
    (Return l, {| w_cfg := cfg'; w_out := init_events cfg ++ rest |}) ->
  Forall (fun ev => resume_event ev = true) rest ->
  cfg' = set_BEGIN_EPOCH (BEGIN_EPOCH (TRAIN cfg')) cfg ->
  fst (main fs (start cfg)) = Return tt /\
  scores_seen (w_out (snd (main fs (start cfg)))) =
    [test_ucf24_jhmdb21 cfg' 0 (model l) (test_loader (bound_of cfg))].
Proof.
  intros Hds Hev Hres Hrest Hcfg'.
  destruct (select_dataset_bound {| w_cfg := cfg'; w_out := init_events cfg ++ rest |})
    as (evs & Hsel & Hevs).
  { simpl. by rewrite Hcfg'. }
  rewrite main_unfold, prologue_unfold, Hres, Hsel.
  rewrite schedule_evaluate by (simpl; by rewrite Hcfg').
  split; [done|]. cbn [snd w_out after w_cfg].
  destruct (init_events_setup cfg) as (Hi & _).
  destruct (resume_event_setup rest Hrest) as [Hr _].
  assert (Hpre : Forall (fun ev => setup_event ev = true)
                   ((init_events cfg ++ rest) ++ evs)).
  { apply Forall_app_2; [apply Forall_app_2|]; done. }
  destruct (setup_projections _ Hpre) as (_ & _ & _ & P4 & _).
  unfold scores_seen in *. rewrite omap_app, P4. simpl.
  rewrite Hcfg'. simpl. done.
Qed.

(** X4. In evaluate-only mode on ucf24 or jhmdb21 the single evaluation is
    made on the test loader (not shuffled, last batch kept), at epoch 0, and
    on the model as the resume step left it: the freshly constructed model
    when no file exists at the resume path, and the model with the
    checkpoint's state loaded -- with the configuration whose begin epoch is
    already the stored epoch plus one -- when a well-formed checkpoint is
    there. *)
Theorem evaluate_only_scores_resumed_model (fs : gmap string File) (cfg : Config) :
  DATASET (TRAIN cfg) = "ucf24" \/ DATASET (TRAIN cfg) = "jhmdb21" ->
  EVALUATE (TRAIN cfg) = true ->
  let out := w_out (snd (main fs (start cfg))) in
  dl_shuffle (test_loader (bound_of cfg)) = false /\
  dl_drop_last (test_loader (bound_of cfg)) = false /\
  ds_file (dl_dataset (test_loader (bound_of cfg))) = TEST_FILE (LISTDATA cfg) /\
  (fs !! RESUME_PATH (TRAIN cfg) = None ->
     scores_seen out =
       [test_ucf24_jhmdb21 cfg 0 (YOWO cfg) (test_loader (bound_of cfg))]) /\
  (forall d k s sd osd,
     fs !! RESUME_PATH (TRAIN cfg) = Some (Pickled d) ->
     ld_epoch d = Some k -> ld_score d = Some s ->
     ld_state_dict d = Some sd -> ld_optimizer d = Some osd ->
     scores_seen out =
       [test_ucf24_jhmdb21 (set_BEGIN_EPOCH (k + 1) cfg) 0
          (load_state_dict (YOWO cfg) sd) (test_loader (bound_of cfg))]).
Proof.
  intros Hds Hev. cbv zeta.
  split; [done|]. split; [done|]. split; [done|].
  split.
  - intros Hno.
    apply (evaluate_run fs cfg (init_locals cfg) cfg []); try done.
    + rewrite resume_absent by done. unfold after, start. simpl.
      by rewrite !app_nil_r.
    + by destruct cfg as [[] ? ? ? ? ?].
  - intros d k s sd osd Hf Hk Hs Hsd Hosd.
    apply (evaluate_run fs cfg
             {| model := load_state_dict (model (init_locals cfg)) sd;
                optimizer := opt_load_state_dict (optimizer (init_locals cfg)) osd;
                best_score := s |}
             (set_BEGIN_EPOCH (k + 1) cfg)
             (resume_events (RESUME_PATH (TRAIN cfg)) s sd osd)); try done.
    + by rewrite (resume_loaded fs _ _ d k s sd osd).
    + apply resume_events_resume.
Qed.


(** ** Training runs, from the state the resume step leaves *)

Lemma resume_result_run (fs : gmap string File) (cfg : Config) l cfg' rest :
  resume_result fs cfg l cfg' rest ->
  resume fs (init_locals cfg) (after (start cfg) (init_events cfg)) =
    (Return l, {| w_cfg := cfg'; w_out := init_events cfg ++ rest |}).
Proof.
  intros [Hno|d k s sd osd Hf Hk Hs Hsd Hosd].
  - rewrite resume_absent by done. unfold after, start. simpl. by rewrite app_nil_r.
  - by rewrite (resume_loaded fs _ _ d k s sd osd).
Qed.

Lemma training_run_cycles (fs : gmap string File) (cfg : Config) l cfg' rest :
  DATASET (TRAIN cfg) = "ucf24" \/ DATASET (TRAIN cfg) = "jhmdb21" ->
  EVALUATE (TRAIN cfg) = false ->
  resume_result fs cfg l cfg' rest ->
  exists pre l' evs,
    main fs (start cfg) = (Return tt, {| w_cfg := cfg'; w_out := pre ++ evs |}) /\
    Forall (fun ev => setup_event ev = true) pre /\
    cycles (bound_of cfg') cfg'
      (py_range (BEGIN_EPOCH (TRAIN cfg')) (END_EPOCH (TRAIN cfg') + 1)) l l' evs.
Proof.
  intros Hds Hev Hrr.
  pose proof (resume_result_run fs cfg l cfg' rest Hrr) as Hres.
  destruct (resume_result_effects _ _ _ _ _ Hrr) as [Hrest Hcfg'].
  destruct (resume_result_begin _ _ _ _ _ Hrr) as (_ & Heval & _).
  destruct (select_dataset_bound {| w_cfg := cfg'; w_out := init_events cfg ++ rest |})
    as (sel & Hsel & Hselkind).
  { simpl. by rewrite Hcfg'. }
  cbn [w_cfg] in Hsel.
  destruct (schedule_train (bound_of cfg') l
              (after {| w_cfg := cfg'; w_out := init_events cfg ++ rest |} sel))
    as (l' & evs & Hsch & _ & Hcyc).
  { simpl. congruence. }
  exists ((init_events cfg ++ rest) ++ sel)%list, l', evs.
  split; [by rewrite main_unfold, prologue_unfold, Hres, Hsel, Hsch|].
  split; [|done].
  destruct (init_events_setup cfg) as (Hi & _).
  destruct (resume_event_setup rest Hrest) as [Hr _].
  apply Forall_app_2; [apply Forall_app_2|]; done.
Qed.

Lemma cycles_records b cfg es l l' evs :
  cycles b cfg es l l' evs ->
  fst <$> save_calls evs = epoch_records b cfg (model l, optimizer l) es /\
  (model l', optimizer l') = fold_left (train_epoch b cfg) es (model l, optimizer l).
Proof.
  induction 1 as [|e es l l1 l2 lr s evs Hstep Hcyc [IH1 IH2]]; [done|].
  destruct (cycle_events_projections cfg e lr (checkpoint_of e l1 s) (best_score l)
              (Qgtb s (best_score l))) as (_ & _ & _ & _ & Hcalls & _).
  destruct Hstep as (o1 & Hadj & Htrain & Hs & _).
  assert (Hte : train_epoch b cfg (model l, optimizer l) e = (model l1, optimizer l1)).
  { unfold train_epoch. simpl. by rewrite Hadj. }
  unfold save_calls in *. rewrite omap_app, Hcalls, fmap_app, IH1. simpl.
  rewrite Hte. simpl. split; [|done].
  unfold checkpoint_of. by rewrite Hs.
Qed.

Lemma cycles_phases b cfg es l l' evs :
  cycles b cfg es l l' evs -> phases evs = es ≫= cycle_phases.
Proof.
  induction 1 as [|e es l l1 l2 lr s evs Hstep Hcyc IH]; [done|].
  unfold phases in *. rewrite omap_app, IH, bind_cons.
  f_equal. unfold cycle_events. by destruct (Qgtb s (best_score l)).
Qed.

Lemma cycles_save_targets b cfg es l l' evs :
  cycles b cfg es l l' evs ->
  save_targets evs =
    replicate (length es) (BACKUP_DIR cfg, DATASET (TRAIN cfg), NUM_FRAMES (DATA cfg)).
Proof.
  induction 1 as [|e es l l1 l2 lr s evs Hstep Hcyc IH]; [done|].
  unfold save_targets in *. rewrite omap_app, IH. simpl.
  unfold cycle_events. by destruct (Qgtb s (best_score l)).
Qed.

Lemma cycles_flagged_scores b cfg es l l' evs :
  cycles b cfg es l l' evs ->
  StronglySorted Qlt (best_score l :: best_flagged_scores evs) /\
  last (best_score l :: best_flagged_scores evs) = Some (best_score l').
Proof.
  induction 1 as [|e es l l1 l2 lr s evs Hstep Hcyc [IH1 IH2]].
  - split; [repeat constructor|done].
  - destruct (cycle_events_projections cfg e lr (checkpoint_of e l1 s) (best_score l)
                (Qgtb s (best_score l))) as (_ & _ & _ & _ & Hcalls & _).
    destruct Hstep as (o1 & _ & _ & _ & Hbest).
    unfold best_flagged_scores, save_calls in *.
    rewrite omap_app, Hcalls. simpl. rewrite filter_cons. simpl.
    destruct (Qgtb s (best_score l)) eqn:Hgt; simpl.
    + rewrite Hbest in IH1, IH2. split; [|done].
      apply Qgtb_true in Hgt.
      apply StronglySorted_cons in IH1 as [Hall Hsorted].
      constructor; [by constructor|].
      constructor; [done|].
      eapply Forall_impl; [exact Hall|]. intros x Hx. by eapply Qlt_trans.
    + by rewrite Hbest in IH1, IH2.
Qed.


Lemma setup_more_projections (evs : list event) :
  Forall (fun ev => setup_event ev = true) evs ->
  phases evs = [] /\ save_targets evs = [].
Proof.
  intros Hall. unfold phases, save_targets.
  split; apply (omap_Forall_None setup_event); try done; by intros [].
Qed.

(** X5. In a training run on ucf24 or jhmdb21, from the local variables [l]
    and configuration [cfg'] the resume step leaves (those of lines 26-46
    when no file exists at the resume path, the checkpoint's otherwise), the
    checkpoint dictionaries passed to [save_checkpoint] are, in order,
    [epoch_records]: epoch after epoch the learning rate is adjusted and the
    training call runs on the model and optimizer the previous epoch left,
    and the record holds the state dictionaries after that call and the
    score of that epoch's evaluation of the trained model (the epoch's own
    score, not the best score). Neither the best score nor any evaluation
    result feeds back into what is trained or saved. *)
Theorem saved_checkpoints_follow_training (fs : gmap string File) (cfg : Config)
    (l : Locals) (cfg' : Config) (rest : list event) :
  DATASET (TRAIN cfg) = "ucf24" \/ DATASET (TRAIN cfg) = "jhmdb21" ->
  EVALUATE (TRAIN cfg) = false ->
  resume_result fs cfg l cfg' rest ->
  let out := w_out (snd (main fs (start cfg))) in
  let records :=
    epoch_records (bound_of cfg') cfg' (model l, optimizer l)
      (py_range (BEGIN_EPOCH (TRAIN cfg')) (END_EPOCH (TRAIN cfg') + 1)) in
  fst (main fs (start cfg)) = Return tt /\
  fst <$> save_calls out = records /\
  scores_seen out = ck_score <$> records.
Proof.
  intros Hds Hev Hrr. cbv zeta.
  destruct (training_run_cycles fs cfg l cfg' rest Hds Hev Hrr)
    as (pre & l' & evs & Hmain & Hpre & Hcyc).
  destruct (setup_projections pre Hpre) as (_ & _ & _ & P4 & P5 & _).
  destruct (cycles_records _ _ _ _ _ _ Hcyc) as [Hrec _].
  destruct (cycles_saves _ _ _ _ _ _ Hcyc) as (_ & Hsc & Hlatest & _).
  rewrite Hmain. cbn [fst snd w_out].
  unfold save_calls, scores_seen in *. rewrite !omap_app, P4, P5. cbn [app].
  split; [done|]. split; [done|].
  by rewrite <- Hrec, <- Hlatest, Hsc.
Qed.

(** X6. In such a run the calls of the schedule happen strictly in sequence:
    for each epoch of the range, in increasing order, the learning-rate
    adjustment, then the training call, then the evaluation call, then the
    [save_checkpoint] call with that epoch's number, and only then the
    adjustment of the next epoch. *)
Theorem schedule_calls_in_epoch_order (fs : gmap string File) (cfg : Config)
    (l : Locals) (cfg' : Config) (rest : list event) :
  DATASET (TRAIN cfg) = "ucf24" \/ DATASET (TRAIN cfg) = "jhmdb21" ->
  EVALUATE (TRAIN cfg) = false ->
  resume_result fs cfg l cfg' rest ->
  phases (w_out (snd (main fs (start cfg)))) =
    py_range (BEGIN_EPOCH (TRAIN cfg')) (END_EPOCH (TRAIN cfg') + 1) ≫= cycle_phases.
Proof.
  intros Hds Hev Hrr.
  destruct (training_run_cycles fs cfg l cfg' rest Hds Hev Hrr)
    as (pre & l' & evs & Hmain & Hpre & Hcyc).
  destruct (setup_more_projections pre Hpre) as [P1 _].
  rewrite Hmain. cbn [snd w_out].
  rewrite <- (cycles_phases _ _ _ _ _ _ Hcyc).
  unfold phases in *. by rewrite omap_app, P1.
Qed.

(** X7. In such a run the scores of the [save_checkpoint] calls made with
    [is_best] set are strictly increasing in call order and all strictly
    above the best score the run started with (0, or the score stored in
    the checkpoint it resumed from). *)
Theorem best_flagged_scores_increase (fs : gmap string File) (cfg : Config)
    (l : Locals) (cfg' : Config) (rest : list event) :
  DATASET (TRAIN cfg) = "ucf24" \/ DATASET (TRAIN cfg) = "jhmdb21" ->
  EVALUATE (TRAIN cfg) = false ->
  resume_result fs cfg l cfg' rest ->
  let flagged := best_flagged_scores (w_out (snd (main fs (start cfg)))) in
  StronglySorted Qlt flagged /\ Forall (fun s => best_score l < s) flagged.
Proof.
  intros Hds Hev Hrr. cbv zeta.
  destruct (training_run_cycles fs cfg l cfg' rest Hds Hev Hrr)
    as (pre & l' & evs & Hmain & Hpre & Hcyc).
  destruct (setup_projections pre Hpre) as (_ & _ & _ & _ & P5 & _).
  destruct (cycles_flagged_scores _ _ _ _ _ _ Hcyc) as [Hsorted _].
  rewrite Hmain. cbn [snd w_out].
  unfold best_flagged_scores, save_calls in *. rewrite omap_app, P5. cbn [app].
  apply StronglySorted_cons in Hsorted as [Hall Hsorted]. done.
Qed.

(** X8. In such a run every [save_checkpoint] call is made with the backup
    directory, the dataset identifier and the frame count of the
    configuration as given, once per epoch of the range: all the checkpoints
    of a run go to the same pair of slots, also after a resume. *)
Theorem save_calls_target_one_slot_pair (fs : gmap string File) (cfg : Config)
    (l : Locals) (cfg' : Config) (rest : list event) :
  DATASET (TRAIN cfg) = "ucf24" \/ DATASET (TRAIN cfg) = "jhmdb21" ->
  EVALUATE (TRAIN cfg) = false ->
  resume_result fs cfg l cfg' rest ->
  save_targets (w_out (snd (main fs (start cfg)))) =
    replicate
      (length (py_range (BEGIN_EPOCH (TRAIN cfg')) (END_EPOCH (TRAIN cfg') + 1)))
      (BACKUP_DIR cfg, DATASET (TRAIN cfg), NUM_FRAMES (DATA cfg)).
Proof.
  intros Hds Hev Hrr.
  destruct (training_run_cycles fs cfg l cfg' rest Hds Hev Hrr)
    as (pre & l' & evs & Hmain & Hpre & Hcyc).
  destruct (setup_more_projections pre Hpre) as [_ P2].
  destruct (resume_result_effects _ _ _ _ _ Hrr) as [_ Hcfg'].
  pose proof (cycles_save_targets _ _ _ _ _ _ Hcyc) as Ht.
  rewrite Hmain. cbn [snd w_out].
  unfold save_targets in *. rewrite omap_app, P2, Ht. cbn [app].
  f_equal. rewrite Hcfg'. reflexivity.
Qed.


(** ** Saving and resuming *)

Lemma py_range_last (b e x : Z) :
  last (py_range b (e + 1)) = Some x -> x = e /\ (b <= e)%Z.
Proof.
  unfold py_range. intros Hlast.
  destruct (Z.le_gt_cases b e) as [Hle|Hgt].
  - replace (e + 1 - b)%Z with (Z.of_nat (S (Z.to_nat (e - b)))) in Hlast by lia.
    rewrite seqZ_S, last_snoc in Hlast. injection Hlast as <-. lia.
  - rewrite seqZ_nil in Hlast by lia. discriminate.
Qed.

Lemma py_range_app (b k e : Z) :
  (b <= k + 1)%Z -> (k <= e)%Z ->
  (py_range b (k + 1) ++ py_range (k + 1) (e + 1))%list = py_range b (e + 1).
Proof.
  intros Hb He. unfold py_range.
  replace (e + 1 - b)%Z with ((k + 1 - b) + (e + 1 - (k + 1)))%Z by lia.
  rewrite seqZ_app by lia. do 2 f_equal. lia.
Qed.

(** X9. The dictionary a completed cycle of epoch e hands to
    [save_checkpoint], once written and read back, resumes a later run where
    that cycle ended: from any initialised state the resume step sets the
    begin epoch to e + 1 and gives the model and the optimizer the state
    dictionaries they had at the end of the cycle. The best score it restores
    is that epoch's own score: it equals the best score the interrupted run
    had reached when the cycle was flagged [is_best], and otherwise it is at
    most the best score that run had before the cycle, which the resumed run
    has lost. *)
Theorem saved_checkpoint_resumes (b : Bound) (e : Z) (l l' : Locals) (w w' : World)
    (st : Checkpoint) (flag : bool)
    (fs : gmap string File) (l0 : Locals) (w0 : World) :
  epoch_cycle (Some b) e l w = (Return l', w') ->
  last (save_calls (w_out w')) = Some (st, flag) ->
  fs !! RESUME_PATH (TRAIN (w_cfg w0)) = Some (pickle st) ->
  exists l2 w2,
    resume fs l0 w0 = (Return l2, w2) /\
    BEGIN_EPOCH (TRAIN (w_cfg w2)) = (e + 1)%Z /\
    state_dict (model l2) = state_dict (model l') /\
    opt_state_dict (optimizer l2) = opt_state_dict (optimizer l') /\
    best_score l2 = ck_score st /\
    best_score l2 <= best_score l' /\
    (flag = true -> best_score l2 = best_score l') /\
    (flag = false -> best_score l2 <= best_score l /\ best_score l' = best_score l).
Proof.
  intros Hcycle Hlast Hf.
  destruct (epoch_cycle_bound b e l w) as (l1 & lr & s & Hstep & Hrun).
  rewrite Hrun in Hcycle. injection Hcycle as -> <-.
  destruct (cycle_events_projections (w_cfg w) e lr (checkpoint_of e l' s)
              (best_score l) (Qgtb s (best_score l))) as (_ & _ & _ & _ & Hcalls & _).
  unfold after, save_calls in Hlast, Hcalls. cbn [w_out] in Hlast.
  rewrite omap_app, Hcalls, last_snoc in Hlast. injection Hlast as <- <-.
  destruct Hstep as (o1 & _ & _ & _ & Hbest).
  unfold pickle in Hf. eexists _, _. split.
  { eapply resume_loaded; [exact Hf|reflexivity..]. }
  simpl. rewrite state_dict_load, opt_state_dict_load, Hbest.
  split; [done|]. split; [done|]. split; [done|]. split; [done|].
  destruct (Qgtb s (best_score l)) eqn:Hgt.
  - split; [apply Qle_refl|]. split; [done|discriminate].
  - apply Qgtb_false in Hgt. split; [done|]. split; [discriminate|done].
Qed.

(** X10. A training run interrupted after its last configured epoch and
    continued from the checkpoint of its last [save_checkpoint] call skips
    and repeats no epoch: the first run started fresh, the second resumes
    from that checkpoint with an end epoch no smaller, and the epochs trained
    by the first followed by those trained by the second are the epochs from
    the first run's begin epoch through the second run's end epoch. The
    begin epoch configured for the second run plays no part. *)
Theorem interrupted_run_resumes_where_it_stopped
    (fs1 fs2 : gmap string File) (cfg1 cfg2 : Config) (st : Checkpoint) (flag : bool) :
  DATASET (TRAIN cfg1) = "ucf24" \/ DATASET (TRAIN cfg1) = "jhmdb21" ->
  EVALUATE (TRAIN cfg1) = false ->
  fs1 !! RESUME_PATH (TRAIN cfg1) = None ->
  last (save_calls (w_out (snd (main fs1 (start cfg1))))) = Some (st, flag) ->
  DATASET (TRAIN cfg2) = "ucf24" \/ DATASET (TRAIN cfg2) = "jhmdb21" ->
  EVALUATE (TRAIN cfg2) = false ->
  fs2 !! RESUME_PATH (TRAIN cfg2) = Some (pickle st) ->
  (END_EPOCH (TRAIN cfg1) <= END_EPOCH (TRAIN cfg2))%Z ->
  ck_epoch st = END_EPOCH (TRAIN cfg1) /\
  (trained_epochs (w_out (snd (main fs1 (start cfg1)))) ++
   trained_epochs (w_out (snd (main fs2 (start cfg2)))))%list =
    py_range (BEGIN_EPOCH (TRAIN cfg1)) (END_EPOCH (TRAIN cfg2) + 1).
Proof.
  intros Hds1 Hev1 Hno Hlast Hds2 Hev2 Hf Hle.
  destruct (training_run_cycles fs1 cfg1 (init_locals cfg1) cfg1 [] Hds1 Hev1)
    as (pre1 & l1 & evs1 & Hmain1 & Hpre1 & Hcyc1); [by constructor|].
  destruct (setup_projections pre1 Hpre1) as (_ & Pt1 & _ & _ & Pc1 & _).
  destruct (cycles_epochs _ _ _ _ _ _ Hcyc1) as (_ & Ht1 & _).
  destruct (cycles_saves _ _ _ _ _ _ Hcyc1) as (Hep1 & _ & Hlatest1 & _).
  rewrite Hmain1 in Hlast |- *. cbn [snd w_out] in Hlast |- *.
  assert (Hk : last (py_range (BEGIN_EPOCH (TRAIN cfg1)) (END_EPOCH (TRAIN cfg1) + 1))
               = Some (ck_epoch st)).
  { rewrite <- Hep1, Hlatest1, !fmap_last.
    unfold save_calls in *. rewrite omap_app, Pc1 in Hlast. cbn [app] in Hlast.
    by rewrite Hlast. }
  apply py_range_last in Hk as [Hk Hb].
  split; [done|].
  destruct (training_run_cycles fs2 cfg2
              {| model := load_state_dict (model (init_locals cfg2)) (ck_state_dict st);
                 optimizer := opt_load_state_dict (optimizer (init_locals cfg2))
                                (ck_optimizer st);
                 best_score := ck_score st |}
              (set_BEGIN_EPOCH (ck_epoch st + 1) cfg2)
              (resume_events (RESUME_PATH (TRAIN cfg2)) (ck_score st)
                 (ck_state_dict st) (ck_optimizer st)) Hds2 Hev2)
    as (pre2 & l2 & evs2 & Hmain2 & Hpre2 & Hcyc2).
  { unfold pickle in Hf. eapply resume_restored; [exact Hf|reflexivity..]. }
  destruct (setup_projections pre2 Hpre2) as (_ & Pt2 & _).
  destruct (cycles_epochs _ _ _ _ _ _ Hcyc2) as (_ & Ht2 & _).
  rewrite Hmain2. cbn [snd w_out].
  unfold trained_epochs in *. rewrite !omap_app, Pt1, Pt2, Ht1, Ht2. cbn [app].
  simpl. rewrite Hk. apply py_range_app; lia.
Qed.


(** ** Dataset ava *)

(** X11. For every configuration with dataset ava whose resume step does not
    fail, no procedure is bound and nothing is ever trained, evaluated or
    saved. In evaluate-only mode the run stops on the unbound name [test]
    before any call of the schedule. In training mode with a non-empty range
    it stops on the unbound name [train], after the learning rate of the
    first epoch (the begin epoch the resume step left) has been adjusted on
    the optimizer; with an empty range it returns normally. *)
Theorem ava_run_binds_no_procedure (fs : gmap string File) (cfg : Config) :
  DATASET (TRAIN cfg) = "ava" ->
  resumable fs cfg = true ->
  let r := main fs (start cfg) in
  let out := w_out (snd r) in
  let b' := BEGIN_EPOCH (TRAIN (w_cfg (snd r))) in
  trained_epochs out = [] /\ tested_epochs out = [] /\ save_calls out = [] /\
  (EVALUATE (TRAIN cfg) = true ->
     fst r = Raise (UnboundLocalError "test") /\ adjusted_epochs out = []) /\
  (EVALUATE (TRAIN cfg) = false -> (b' <= END_EPOCH (TRAIN cfg))%Z ->
     fst r = Raise (UnboundLocalError "train") /\ adjusted_epochs out = [b']) /\
  (EVALUATE (TRAIN cfg) = false -> (END_EPOCH (TRAIN cfg) < b')%Z ->
     fst r = Return tt /\ adjusted_epochs out = []).
Proof.
  intros Hds Hok. cbv zeta.
  destruct (prologue_ava fs cfg Hds Hok) as (l & cfg' & pre & Hpro & [rest Hrr] & Hpre & _).
  destruct (resume_result_begin _ _ _ _ _ Hrr) as (Hend & Heval & _).
  destruct (setup_projections pre Hpre) as (P1 & P2 & P3 & _ & P5 & _).
  rewrite main_unfold, Hpro.
  destruct (EVALUATE (TRAIN cfg)) eqn:Hev.
  - rewrite schedule_evaluate_unbound by (simpl; congruence).
    cbn [fst snd w_out w_cfg after].
    unfold trained_epochs, tested_epochs, save_calls, adjusted_epochs in *.
    rewrite !omap_app, P1, P2, P3, P5. by repeat split.
  - destruct (Z.le_gt_cases (BEGIN_EPOCH (TRAIN cfg')) (END_EPOCH (TRAIN cfg')))
      as [Hle|Hgt].
    + destruct (schedule_train_unbound l {| w_cfg := cfg'; w_out := pre |})
        as [lr Hsch]; [simpl; congruence|done|].
      rewrite Hsch. cbn [fst snd w_out w_cfg after].
      unfold trained_epochs, tested_epochs, save_calls, adjusted_epochs in *.
      rewrite !omap_app, P1, P2, P3, P5. simpl.
      split; [done|]. split; [done|]. split; [done|]. split; [done|].
      split; [done|]. intros _ Hlt. lia.
    + rewrite schedule_train_unbound_empty by (simpl; first [congruence|lia]).
      cbn [fst snd w_out w_cfg].
      split; [done|]. split; [done|]. split; [done|]. split; [done|].
      split; [|done]. intros _ Hle. lia.
Qed.

End MoreProperties.

Section ScriptProperties.
Context `{K : Collaborators} `{H : Host}.



End ScriptProperties.

(** * The further properties on concrete runs *)


Lemma resume_error_order_witness :
  let fs : gmap string (@File demo) :=
    {[ "ckpt.pth" := Pickled (@Build_LoadedDict demo (Some 4%Z) None (Some 7%Z) (Some 9%Z)) ]} in
  let c := config "ucf24" 1 9 false "ckpt.pth" in
  let r := @resume demo fs (@init_locals demo c) (start c) in
  fst r = Raise (KeyError "score") /\ BEGIN_EPOCH (TRAIN (w_cfg (snd r))) = 5%Z.
Proof.
  cbv zeta.
  destruct (@resume_error_order demo
              {[ "ckpt.pth" := Pickled (@Build_LoadedDict demo (Some 4%Z) None
                                          (Some 7%Z) (Some 9%Z)) ]}
              (@init_locals demo (config "ucf24" 1 9 false "ckpt.pth"))
              (start (config "ucf24" 1 9 false "ckpt.pth"))
              (Pickled (@Build_LoadedDict demo (Some 4%Z) None (Some 7%Z) (Some 9%Z))))
    as [_ Hd]; [reflexivity|].
  destruct (Hd _ eq_refl) as [_ Hk].
  destruct (Hk 4%Z eq_refl) as (Hcfg & Hscore & _).
  split; [exact (Hscore eq_refl)|]. rewrite Hcfg. reflexivity.
Defined.

Lemma evaluate_only_scores_resumed_model_witness :
  let c := config "ucf24" 1 3 true "ckpt.pth" in
  scores_seen (w_out (snd (@main demo demo_fs (start c)))) =
    [@test_ucf24_jhmdb21 demo (set_BEGIN_EPOCH 2 c) 0 7%Z (test_loader (@bound_of demo c))].
Proof.
  cbv zeta.
  destruct (@evaluate_only_scores_resumed_model demo demo_fs
              (config "ucf24" 1 3 true "ckpt.pth")) as (_ & _ & _ & _ & Hload).
  - left. reflexivity.
  - reflexivity.
  - exact (Hload (@Build_LoadedDict demo (Some 1%Z) (Some (Qmake (-1) 2))
                    (Some 7%Z) (Some 9%Z))
                 1%Z (Qmake (-1) 2) 7%Z 9%Z eq_refl eq_refl eq_refl eq_refl eq_refl).
Defined.

Lemma saved_checkpoints_follow_training_witness :
  let c := config "ucf24" 1 3 false "" in
  ck_epoch <$> (fst <$> save_calls (w_out (snd (@main demo ∅ (start c))))) = [1; 2; 3]%Z.
Proof.
  cbv zeta.
  destruct (@saved_checkpoints_follow_training demo ∅ (config "ucf24" 1 3 false "")
              (@init_locals demo (config "ucf24" 1 3 false ""))
              (config "ucf24" 1 3 false "") []) as (_ & Hrec & _).
  - left. reflexivity.
  - reflexivity.
  - constructor. reflexivity.
  - cbv zeta in Hrec. rewrite Hrec. reflexivity.
Defined.

Lemma schedule_calls_in_epoch_order_witness :
  phases (w_out (snd (@main demo ∅ (start (config "jhmdb21" 7 8 false ""))))) =
    [(Adjusting, 7); (Training, 7); (Testing, 7); (Saving, 7);
     (Adjusting, 8); (Training, 8); (Testing, 8); (Saving, 8)]%Z.
Proof.
  rewrite (@schedule_calls_in_epoch_order demo ∅ (config "jhmdb21" 7 8 false "")
             (@init_locals demo (config "jhmdb21" 7 8 false ""))
             (config "jhmdb21" 7 8 false "") []).
  - reflexivity.
  - right. reflexivity.
  - reflexivity.
  - constructor. reflexivity.
Defined.

Lemma best_flagged_scores_increase_witness :
  StronglySorted Qlt
    (best_flagged_scores (w_out (snd (@main demo ∅ (start (config "ucf24" 1 4 false "")))))).
Proof.
  apply (@best_flagged_scores_increase demo ∅ (config "ucf24" 1 4 false "")
           (@init_locals demo (config "ucf24" 1 4 false ""))
           (config "ucf24" 1 4 false "") []).
  - left. reflexivity.
  - reflexivity.
  - constructor. reflexivity.
Defined.

Lemma save_calls_target_one_slot_pair_witness :
  save_targets (w_out (snd (@main demo demo_fs (start (config "ucf24" 1 3 false "ckpt.pth")))))
  = [("backup", "ucf24", 16%Z); ("backup", "ucf24", 16%Z)].
Proof.
  rewrite (@save_calls_target_one_slot_pair demo demo_fs
             (config "ucf24" 1 3 false "ckpt.pth")
             (@Build_Locals demo 7%Z 9%Z (Qmake (-1) 2))
             (set_BEGIN_EPOCH 2 (config "ucf24" 1 3 false "ckpt.pth"))
             (@resume_events demo "ckpt.pth" (Qmake (-1) 2) 7%Z 9%Z)).
  - reflexivity.
  - left. reflexivity.
  - reflexivity.
  - exact (@resume_restored demo demo_fs (config "ucf24" 1 3 false "ckpt.pth")
             (@Build_LoadedDict demo (Some 1%Z) (Some (Qmake (-1) 2)) (Some 7%Z) (Some 9%Z))
             1%Z (Qmake (-1) 2) 7%Z 9%Z eq_refl eq_refl eq_refl eq_refl eq_refl).
Defined.

Lemma saved_checkpoint_resumes_witness :
  let c := config "ucf24" 1 3 false "ckpt.pth" in
  let st := @Build_Checkpoint demo 1%Z 1%Z 1%Z (Qmake 1 10) in
  exists l2 w2,
    @resume demo {[ "ckpt.pth" := @pickle demo st ]} (@init_locals demo c) (start c)
      = (Return l2, w2) /\
    BEGIN_EPOCH (TRAIN (w_cfg w2)) = 2%Z /\ best_score l2 = Qmake 1 10.
Proof.
  cbv zeta.
  destruct (@saved_checkpoint_resumes demo
              (@bound_of demo (config "ucf24" 1 3 false ""))
              1%Z (@init_locals demo (config "ucf24" 1 3 false ""))
              (@Build_Locals demo 1%Z 1%Z (Qmake 1 10))
              (start (config "ucf24" 1 3 false ""))
              (snd (@epoch_cycle demo (Some (@bound_of demo (config "ucf24" 1 3 false "")))
                      1%Z (@init_locals demo (config "ucf24" 1 3 false ""))
                      (start (config "ucf24" 1 3 false ""))))
              (@Build_Checkpoint demo 1%Z 1%Z 1%Z (Qmake 1 10)) true
              {[ "ckpt.pth" := @pickle demo (@Build_Checkpoint demo 1%Z 1%Z 1%Z (Qmake 1 10)) ]}
              (@init_locals demo (config "ucf24" 1 3 false "ckpt.pth"))
              (start (config "ucf24" 1 3 false "ckpt.pth")))
    as (l2 & w2 & Hrun & Hb & _ & _ & Hs & _).
  - vm_compute. reflexivity.
  - vm_compute. reflexivity.
  - reflexivity.
  - exists l2, w2. split; [exact Hrun|]. split; [exact Hb|exact Hs].
Defined.

Lemma interrupted_run_resumes_where_it_stopped_witness :
  let st := @Build_Checkpoint demo 2%Z 2%Z 2%Z (Qmake 2 10) in
  (trained_epochs (w_out (snd (@main demo ∅ (start (config "ucf24" 1 2 false ""))))) ++
   trained_epochs (w_out (snd (@main demo {[ "ckpt.pth" := @pickle demo st ]}
                                 (start (config "ucf24" 1 4 false "ckpt.pth"))))))%list
  = py_range 1 (4 + 1).
Proof.
  cbv zeta.
  destruct (@interrupted_run_resumes_where_it_stopped demo ∅
              {[ "ckpt.pth" := @pickle demo (@Build_Checkpoint demo 2%Z 2%Z 2%Z (Qmake 2 10)) ]}
              (config "ucf24" 1 2 false "") (config "ucf24" 1 4 false "ckpt.pth")
              (@Build_Checkpoint demo 2%Z 2%Z 2%Z (Qmake 2 10)) true) as [_ Hepochs].
  - left. reflexivity.
  - reflexivity.
  - reflexivity.
  - vm_compute. reflexivity.
  - left. reflexivity.
  - reflexivity.
  - reflexivity.
  - vm_compute. discriminate.
  - exact Hepochs.
Defined.

Lemma ava_run_binds_no_procedure_witness :
  let r := @main demo ∅ (start (config "ava" 1 3 false "")) in
  fst r = Raise (UnboundLocalError "train") /\ adjusted_epochs (w_out (snd r)) = [1%Z].
Proof.
  cbv zeta.
  destruct (@ava_run_binds_no_procedure demo ∅ (config "ava" 1 3 false ""))
    as (_ & _ & _ & _ & Htrain & _).
  - reflexivity.
  - reflexivity.
  - cbv zeta in Htrain. apply Htrain.
    + reflexivity.
    + vm_compute. discriminate.
Defined.

